(** * Inference pipeline of the lung-cancer detection service

    A shallow embedding of [app/core/config.py], [app/services/image_processor.py]
    and the [/predict] route of [app/api/v1/endpoints.py], followed by the
    properties of the pipeline: validation, preprocessing, prediction,
    error mapping and the frame of the processor state.

    Conventions.
    - Python [int] is [Z]; [str] is [string]; [bytes] is [list byte].
      Strings are sequences of 8-bit characters: the whitespace that
      [str.strip] removes and the digits that [int] reads are the ASCII ones,
      so the parsing of a configuration string agrees with Python on ASCII
      text (Python also accepts Unicode whitespace and digits).
    - numpy samples and probabilities are exact rationals ([Q]): every
      [float32] value that is not NaN or infinite is a dyadic rational, and
      the comparisons made by [np.argmax]/[np.max] agree with [Q] on them.
      Rounding of [float32] division is not part of the model.
    - Pillow, numpy reductions, Keras, the clock and [os.path] are outside the
      repository; they enter through the interface [Libs]. *)

From Stdlib Require Import String Ascii ZArith QArith Qabs List Bool Lia Lqa.
From Stdlib Require Import Strings.Byte DecimalString.
Import ListNotations.
Local Open Scope string_scope.
Local Open Scope Z_scope.

(** ** Python strings *)

Module PyStr.

(** [str.isspace] on one ASCII character: TAB..CR, FS..US and space.
    Whitespace outside ASCII is not represented. *)
Definition is_space (c : ascii) : bool :=
  let n := Z.of_N (N_of_ascii c) in
  ((9 <=? n) && (n <=? 13)) || ((28 <=? n) && (n <=? 32)).

(** [s.split(sep)] for a one-character separator. *)
Fixpoint split (sep : ascii) (s : string) : list string :=
  match s with
  | EmptyString => [EmptyString]
  | String c s' =>
      if Ascii.eqb c sep then EmptyString :: split sep s'
      else match split sep s' with
           | [] => [String c EmptyString]
           | w :: ws => String c w :: ws
           end
  end.

Fixpoint lstrip (s : string) : string :=
  match s with
  | EmptyString => EmptyString
  | String c s' => if is_space c then lstrip s' else s
  end.

Fixpoint rstrip (s : string) : string :=
  match s with
  | EmptyString => EmptyString
  | String c s' =>
      match rstrip s' with
      | EmptyString => if is_space c then EmptyString else String c EmptyString
      | r => String c r
      end
  end.

(** [s.strip()] *)
Definition strip (s : string) : string := rstrip (lstrip s).

Definition digit_of (c : ascii) : option Z :=
  let n := Z.of_N (N_of_ascii c) in
  if (48 <=? n) && (n <=? 57) then Some (n - 48) else None.

(** Decimal digits with single underscores between digits, as [int]
    accepts them. [prev] tells whether the previous character was a digit. *)
Fixpoint digits (acc : Z) (prev : bool) (s : string) : option Z :=
  match s with
  | EmptyString => if prev then Some acc else None
  | String c s' =>
      match digit_of c with
      | Some d => digits (10 * acc + d) true s'
      | None =>
          if Ascii.eqb c "_"%char && prev then digits acc false s' else None
      end
  end.

(** [int(s)] for a string, base 10; [None] stands for [ValueError]. *)
Definition int (s : string) : option Z :=
  match strip s with
  | String "+"%char r => digits 0 false r
  | String "-"%char r => option_map Z.opp (digits 0 false r)
  | t => digits 0 false t
  end.

(** [x in xs] for a list of strings. *)
Definition mem (x : string) (xs : list string) : bool :=
  existsb (String.eqb x) xs.

End PyStr.

(** ** Configuration ([app/core/config.py]) *)

Record Settings : Type := mkSettings {
  MAX_FILE_SIZE : Z;
  ALLOWED_IMAGE_TYPES : string;
  MODEL_PATH : string;
  MODEL_INPUT_SIZE : string;
  CONFIDENCE_THRESHOLD : Q
}.

(** The class attributes' default values. *)
Definition settings : Settings := {|
  MAX_FILE_SIZE := 50 * 1024 * 1024;
  ALLOWED_IMAGE_TYPES := "image/jpeg,image/png,image/tiff,image/bmp";
  MODEL_PATH := "./models/lung_cancer_model.h5";
  MODEL_INPUT_SIZE := "224,224";
  CONFIDENCE_THRESHOLD := (1 # 2)%Q
|}.

(** [Settings.get_model_input_size]: any failure of the unpacking or of
    [int] falls back to (224, 224). *)
Definition get_model_input_size (cfg : Settings) : Z * Z :=
  match PyStr.split ","%char (MODEL_INPUT_SIZE cfg) with
  | [width; height] =>
      match PyStr.int (PyStr.strip width), PyStr.int (PyStr.strip height) with
      | Some w, Some h => (w, h)
      | _, _ => (224, 224)
      end
  | _ => (224, 224)
  end.

(** [Settings.get_allowed_image_types] *)
Definition get_allowed_image_types (cfg : Settings) : list string :=
  map PyStr.strip (PyStr.split ","%char (ALLOWED_IMAGE_TYPES cfg)).

(** ** Validation ([ImageProcessor.validate_image])

    [content_type] is [None] when the upload carries no type; Python's
    [not content_type] holds for [None] and for the empty string. *)

Definition py_not_str (s : option string) : bool :=
  match s with
  | None => true
  | Some EmptyString => true
  | Some _ => false
  end.

Definition str_in (s : option string) (xs : list string) : bool :=
  match s with
  | None => false
  | Some x => PyStr.mem x xs
  end.

Definition validate_image (cfg : Settings) (content_type : option string)
    (file_size : Z) : bool :=
  if py_not_str content_type
     || negb (str_in content_type (get_allowed_image_types cfg))
  then false
  else if file_size >? MAX_FILE_SIZE cfg then false
  else true.

(** ** Exceptions

    The exception classes that travel through the pipeline, with the part of
    Python's class hierarchy the [except] clauses of the route look at:
    Pillow's [UnidentifiedImageError] derives from [OSError], pydantic's
    [ValidationError] from [ValueError], and FastAPI's [HTTPException]
    directly from [Exception]. *)

Inductive exn_class : Type :=
  | BaseException_
  | Exception_
  | ValueError
  | RuntimeError
  | OSError
  | UnidentifiedImageError
  | LookupError
  | IndexError
  | AttributeError
  | ValidationError
  | HTTPException_.

Definition base_class (c : exn_class) : option exn_class :=
  match c with
  | BaseException_ => None
  | Exception_ => Some BaseException_
  | ValueError | RuntimeError | OSError | LookupError | AttributeError
  | HTTPException_ => Some Exception_
  | UnidentifiedImageError => Some OSError
  | IndexError => Some LookupError
  | ValidationError => Some ValueError
  end.

Definition exn_class_eqb (a b : exn_class) : bool :=
  match a, b with
  | BaseException_, BaseException_ | Exception_, Exception_
  | ValueError, ValueError | RuntimeError, RuntimeError | OSError, OSError
  | UnidentifiedImageError, UnidentifiedImageError
  | LookupError, LookupError | IndexError, IndexError
  | AttributeError, AttributeError | ValidationError, ValidationError
  | HTTPException_, HTTPException_ => true
  | _, _ => false
  end.

(** [issubclass c d]; the hierarchy above has depth 4. *)
Fixpoint issubclass_fuel (fuel : nat) (c d : exn_class) : bool :=
  exn_class_eqb c d ||
  match fuel with
  | O => false
  | S k => match base_class c with
           | Some b => issubclass_fuel k b d
           | None => false
           end
  end.

Definition issubclass : exn_class -> exn_class -> bool := issubclass_fuel 4.

(** A raised exception: its class, [str(e)], and for [HTTPException] the
    status code ([0] for every other class). The detail of an
    [HTTPException] is read back from the response status and is not kept
    apart from [str(e)]. *)
Record exn : Type := mkExn {
  exn_cls : exn_class;
  exn_str : string;
  status_code : Z
}.

Definition PyExc (c : exn_class) (msg : string) : exn := mkExn c msg 0.

(** [str(n)] for an [int] *)
Definition str_int (n : Z) : string := NilZero.string_of_int (Z.to_int n).

(** [HTTPException(status_code=..., detail=...)]; Starlette's [__str__]
    gives the status code, a colon and the detail. *)
Definition HTTPException (status : Z) (detail : string) : exn :=
  mkExn HTTPException_ (str_int status ++ ": " ++ detail) status.

Definition isinstance (e : exn) (c : exn_class) : bool :=
  issubclass (exn_cls e) c.

Inductive result (A : Type) : Type :=
  | Ok (a : A)
  | Raise (e : exn).
Arguments Ok {A} a.
Arguments Raise {A} e.

(** ** numpy arrays: a shape and the samples in row-major order *)

Record ndarray : Type := mkArr {
  shape : list Z;
  data : list Q
}.

(** [a / 255.0] *)
Definition np_div (a : ndarray) (d : Q) : ndarray :=
  mkArr (shape a) (map (fun x => (x / d)%Q) (data a)).

(** [np.expand_dims(a, axis=0)] *)
Definition np_expand_dims0 (a : ndarray) : ndarray :=
  mkArr (1 :: shape a) (data a).

Definition Qlt_bool (a b : Q) : bool := negb (Qle_bool b a).

(** The scan behind [np.argmax] and [np.max]: the running best is replaced
    only by a strictly greater sample, so the first occurrence of the
    maximum wins. *)
Fixpoint max_scan (best_i : Z) (best : Q) (i : Z) (l : list Q) : Z * Q :=
  match l with
  | [] => (best_i, best)
  | x :: t =>
      if Qlt_bool best x then max_scan i x (i + 1) t
      else max_scan best_i best (i + 1) t
  end.

(** Both raise [ValueError] on an empty sequence. *)
Definition np_argmax (l : list Q) : result Z :=
  match l with
  | [] => Raise (PyExc ValueError "attempt to get argmax of an empty sequence")
  | x :: t => Ok (fst (max_scan 0 x 1 t))
  end.

Definition np_max (l : list Q) : result Q :=
  match l with
  | [] => Raise (PyExc ValueError
                   "zero-size array to reduction operation maximum which has no identity")
  | x :: t => Ok (snd (max_scan 0 x 1 t))
  end.

(** [l[i]] for a Python list or a one-dimensional array: negative indices
    count from the end, anything out of range raises [IndexError]. *)
Definition getitem {A : Type} (l : list A) (i : Z) : result A :=
  let n := Z.of_nat (length l) in
  let j := if i <? 0 then i + n else i in
  if (j <? 0) || (n <=? j) then Raise (PyExc IndexError "index out of range")
  else match nth_error l (Z.to_nat j) with
       | Some x => Ok x
       | None => Raise (PyExc IndexError "index out of range")
       end.

(** ** The Keras model handle: only [model.predict] is used. *)

Record Model : Type := mkModel {
  forward : ndarray -> result (list (list Q))
}.

(** ** Schemas ([app/schemas/prediction.py]) *)

Record ImageInfo : Type := mkImageInfo {
  width : Z;
  height : Z;
  channels : option Z;
  format : option string
}.

Record ImageStats : Type := mkImageStats {
  mean_intensity : Q;
  std_intensity : Q;
  stats_shape : list Z;
  size_bytes : option Z
}.

Record PredictionResult : Type := mkPredictionResult {
  prediction : string;
  confidence : Q;
  probabilities : list (string * Q);
  processing_time_ms : Q
}.

Record PredictionResponse : Type := mkPredictionResponse {
  status : string;
  filename : string;
  image_info : ImageInfo;
  image_stats : ImageStats;
  prediction_result : PredictionResult;
  message : string;
  timestamp : string
}.

(** Building a [PredictionResult] from the dict: the field constraint [ge=0.0, le=1.0] on
    [confidence] is checked by pydantic, which raises [ValidationError]. *)
Definition PredictionResult_validate (d : PredictionResult)
  : result PredictionResult :=
  if Qle_bool 0 (confidence d) && Qle_bool (confidence d) 1 then Ok d
  else Raise (PyExc ValidationError "1 validation error for PredictionResult").

(** ** Libraries outside the repository

    [pil_identify] is the container detection of [Image.open] ([None]: no
    plugin recognises the bytes). [Image.open] is lazy: the pixel data is
    decoded by [Image.load], which [np.array], [convert] and [resize] call
    first; [pil_load] is its outcome ([None]: the pixels decode, [Some e]:
    it raises [e], as [OSError] on a truncated file). [im_convert_L],
    [im_resample] (LANCZOS, on a valid size) and [np_array] are the
    operations on a loaded image. [clock] and [utcnow_isoformat] give the
    value of the k-th reading of the system clock. *)

Class Libs : Type := {
  PILImage : Type;
  pil_identify : list byte -> option PILImage;
  pil_load : PILImage -> option exn;
  im_mode : PILImage -> string;
  im_size : PILImage -> Z * Z;
  im_getbands : PILImage -> list string;
  im_format : PILImage -> option string;
  im_convert_L : PILImage -> PILImage;
  im_resample : Z * Z -> PILImage -> PILImage;
  np_array : PILImage -> ndarray;
  np_mean : ndarray -> Q;
  np_std : ndarray -> Q;
  keras_load_model : string -> result Model;
  os_path_isabs : string -> bool;
  os_path_abspath : string -> string;
  clock : nat -> Q;
  utcnow_isoformat : nat -> string
}.

(** What the pipeline relies on from Pillow and numpy: conversion yields
    mode L, resampling keeps the mode and yields the requested size, the
    images they return are held in memory, and the array of a mode-L image of
    size (w, h) has shape [h; w] with one 8-bit sample per pixel. *)
Record LibsOk (L : Libs) : Prop := {
  convert_loaded : forall im, pil_load (im_convert_L im) = None;
  resample_loaded : forall sz im, pil_load (im_resample sz im) = None;
  convert_mode : forall im, im_mode (im_convert_L im) = "L";
  resample_mode : forall sz im, im_mode (im_resample sz im) = im_mode im;
  resample_size : forall w h im,
    0 < w -> 0 < h -> im_size (im_resample (w, h) im) = (w, h);
  array_L : forall im,
    im_mode im = "L" ->
    shape (np_array im) = [snd (im_size im); fst (im_size im)]
    /\ length (data (np_array im))
       = Z.to_nat (snd (im_size im) * fst (im_size im))
    /\ Forall (fun x => (0 <= x)%Q /\ (x <= 255)%Q) (data (np_array im))
}.

(** ** Processor state and the effects of a call *)

Record ImageProcessor : Type := mkProcessor {
  model : option Model;
  model_loaded : bool
}.

(** What a call leaves behind besides its result: log records and forward
    passes of the model, most recent first. *)
Inductive event : Type :=
  | LogInfo (msg : string)
  | LogWarning (msg : string)
  | LogError (msg : string)
  | ModelPredict (x : ndarray).

Record World : Type := mkWorld {
  self : ImageProcessor;
  events : list event;
  ticks : nat
}.

(** State that survives an exception, with a result or a raised exception. *)
Definition M (A : Type) : Type := World -> result A * World.

Definition ret {A : Type} (a : A) : M A := fun w => (Ok a, w).

Definition raise {A : Type} (e : exn) : M A := fun w => (Raise e, w).

Definition bind {A B : Type} (c : M A) (k : A -> M B) : M B :=
  fun w =>
    match c w with
    | (Ok a, w') => k a w'
    | (Raise e, w') => (Raise e, w')
    end.

Notation "x <- c ;; k" := (bind c (fun x => k))
  (at level 61, c at next level, right associativity).
Notation "c ;; k" := (bind c (fun _ => k))
  (at level 61, right associativity).

Definition lift {A : Type} (r : result A) : M A := fun w => (r, w).

(** [try: body / except C1 as e: h1 / except C2 as e: h2 ...]: the first
    clause whose class the exception is an instance of runs; what a handler
    raises is not seen by the other clauses. *)
Fixpoint select_handler {A : Type} (e : exn)
    (clauses : list (exn_class * (exn -> M A))) : M A :=
  match clauses with
  | [] => raise e
  | (c, h) :: rest => if isinstance e c then h e else select_handler e rest
  end.

Definition try_except {A : Type} (body : M A)
    (clauses : list (exn_class * (exn -> M A))) : M A :=
  fun w =>
    match body w with
    | (Ok a, w') => (Ok a, w')
    | (Raise e, w') => select_handler e clauses w'
    end.

Definition emit (ev : event) : M unit :=
  fun w => (Ok tt, mkWorld (self w) (ev :: events w) (ticks w)).

Definition logger_info (msg : string) : M unit := emit (LogInfo msg).
Definition logger_warning (msg : string) : M unit := emit (LogWarning msg).
Definition logger_error (msg : string) : M unit := emit (LogError msg).

Definition get_self : M ImageProcessor := fun w => (Ok (self w), w).

Definition set_model (m : option Model) : M unit :=
  fun w => (Ok tt, mkWorld (mkProcessor m (model_loaded (self w)))
                           (events w) (ticks w)).

Definition set_model_loaded (b : bool) : M unit :=
  fun w => (Ok tt, mkWorld (mkProcessor (model (self w)) b)
                           (events w) (ticks w)).

Definition run {A : Type} (c : M A) (w : World) : result A := fst (c w).
Definition after {A : Type} (c : M A) (w : World) : World := snd (c w).

(** Number of forward passes recorded in a log. *)
Fixpoint forward_passes (evs : list event) : nat :=
  match evs with
  | [] => O
  | ModelPredict _ :: t => S (forward_passes t)
  | _ :: t => forward_passes t
  end.

(** ** The service ([app/services/image_processor.py]) *)

Section Service.

Context {L : Libs}.

(** [time.time()] and [datetime.utcnow().isoformat()] *)
Definition time_time : M Q :=
  fun w => (Ok (clock (ticks w)),
            mkWorld (self w) (events w) (S (ticks w))).

Definition datetime_utcnow_isoformat : M string :=
  fun w => (Ok (utcnow_isoformat (ticks w)),
            mkWorld (self w) (events w) (S (ticks w))).

(** [Settings.get_model_path] *)
Definition get_model_path (cfg : Settings) : string :=
  if os_path_isabs (MODEL_PATH cfg) then MODEL_PATH cfg
  else os_path_abspath (MODEL_PATH cfg).

(** [Image.open(io.BytesIO(image_data))] *)
Definition Image_open (image_data : list byte) : result PILImage :=
  match pil_identify image_data with
  | Some im => Ok im
  | None => Raise (PyExc UnidentifiedImageError "cannot identify image file")
  end.

(** [image.convert('L')]: loads the image first. *)
Definition Image_convert_L (im : PILImage) : result PILImage :=
  match pil_load im with
  | Some e => Raise e
  | None => Ok (im_convert_L im)
  end.

(** [image.resize(size, Image.Resampling.LANCZOS)]: loads the image, then
    the resampling core refuses a size that is not positive. *)
Definition Image_resize (size : Z * Z) (im : PILImage) : result PILImage :=
  match pil_load im with
  | Some e => Raise e
  | None =>
      if (fst size <=? 0) || (snd size <=? 0)
      then Raise (PyExc ValueError "height and width must be > 0")
      else Ok (im_resample size im)
  end.

(** [np.array(image)]: loads the image first. *)
Definition np_array_of (im : PILImage) : result ndarray :=
  match pil_load im with
  | Some e => Raise e
  | None => Ok (np_array im)
  end.

Definition _load_model (cfg : Settings) : M unit :=
  try_except
    (m <- lift (keras_load_model (get_model_path cfg)) ;;
     set_model (Some m) ;;
     set_model_loaded true)
    [(Exception_, fun e =>
        logger_error ("Failed to load model: " ++ exn_str e) ;;
        set_model_loaded false)].

Definition __init__ (cfg : Settings) : M unit :=
  set_model None ;;
  set_model_loaded false ;;
  _load_model cfg.

Definition extract_image_info (image : PILImage) (file_size : option Z)
  : ImageInfo :=
  let '(w, h) := im_size image in
  let chans := match im_getbands image with
               | [] => 0
               | bands => Z.of_nat (length bands)
               end in
  mkImageInfo w h (Some chans) (im_format image).

Definition calculate_image_stats (image_array : ndarray)
    (file_size : option Z) : ImageStats :=
  mkImageStats (np_mean image_array) (np_std image_array)
               (shape image_array) file_size.

Definition preprocess_image (cfg : Settings) (image : PILImage)
  : result ndarray :=
  match (if negb (String.eqb (im_mode image) "L") then Image_convert_L image
         else Ok image) with
  | Raise e => Raise e
  | Ok image1 =>
      let target_size := get_model_input_size cfg in
      match Image_resize target_size image1 with
      | Raise e => Raise e
      | Ok image2 =>
          match np_array_of image2 with
          | Raise e => Raise e
          | Ok image_array =>
              let image_array := np_div image_array 255 in
              let image_array := np_expand_dims0 image_array in
              Ok image_array
          end
      end
  end.

Definition class_labels : list string :=
  ["Benign Case"; "Malignant Case"; "Normal Case"].

(** [self.model.predict(x)]: attribute lookup on [None] raises
    [AttributeError]; otherwise the forward pass runs and is recorded. *)
Definition model_predict (x : ndarray) : M (list (list Q)) :=
  p <- get_self ;;
  match model p with
  | None =>
      raise (PyExc AttributeError
               "'NoneType' object has no attribute 'predict'")
  | Some m => emit (ModelPredict x) ;; lift (forward m x)
  end.

Definition predict (preprocessed_image : ndarray) : M PredictionResult :=
  start_time <- time_time ;;
  try_except
    (p <- get_self ;;
     (if negb (model_loaded p)
      then raise (PyExc RuntimeError "Model not loaded")
      else ret tt) ;;
     predictions <- model_predict preprocessed_image ;;
     class_probs <- lift (getitem predictions 0) ;;
     predicted_class_idx <- lift (np_argmax class_probs) ;;
     conf <- lift (np_max class_probs) ;;
     prediction_class <- lift (getitem class_labels predicted_class_idx) ;;
     p0 <- lift (getitem class_probs 0) ;;
     p1 <- lift (getitem class_probs 1) ;;
     p2 <- lift (getitem class_probs 2) ;;
     now_ <- time_time ;;
     ret (mkPredictionResult prediction_class conf
            [("Benign Case", p0); ("Malignant Case", p1); ("Normal Case", p2)]
            ((now_ - start_time) * 1000)%Q))
    [(Exception_, fun e =>
        logger_error ("Prediction failed: " ++ exn_str e) ;;
        raise e)].

Definition process_image (cfg : Settings) (image_data : list byte)
    (fname : string) (content_type : option string) : M PredictionResponse :=
  let file_size := Z.of_nat (length image_data) in
  (if negb (validate_image cfg content_type file_size)
   then raise (PyExc ValueError "Invalid image file")
   else ret tt) ;;
  try_except
    (image <- lift (Image_open image_data) ;;
     let info := extract_image_info image (Some file_size) in
     image_array <- lift (np_array_of image) ;;
     let stats := calculate_image_stats image_array (Some file_size) in
     preprocessed_image <- lift (preprocess_image cfg image) ;;
     prediction_results <- predict preprocessed_image ;;
     pr <- lift (PredictionResult_validate prediction_results) ;;
     ts <- datetime_utcnow_isoformat ;;
     ret (mkPredictionResponse "success" fname info stats pr
            "Image processed successfully" ts))
    [(Exception_, fun e =>
        logger_error ("Image processing failed: " ++ exn_str e) ;;
        raise e)].

(** ** The route ([app/api/v1/endpoints.py], [predict_image]) *)

Record UploadFile : Type := mkUpload {
  upload_filename : option string;
  upload_content_type : option string;
  upload_bytes : list byte
}.

Definition str_of (s : option string) : string :=
  match s with Some x => x | None => "None" end.

Definition predict_image (cfg : Settings) (file : UploadFile)
  : M PredictionResponse :=
  if py_not_str (upload_filename file)
  then raise (HTTPException 400 "No file provided")
  else if py_not_str (upload_content_type file)
  then raise (HTTPException 400 "Unable to determine file type")
  else
    let fname := str_of (upload_filename file) in
    logger_info ("Processing image: " ++ fname ++ " ("
                 ++ str_of (upload_content_type file) ++ ")") ;;
    try_except
      (let image_data := upload_bytes file in
       (match image_data with
        | [] => raise (HTTPException 400 "Empty file provided")
        | _ => ret tt
        end) ;;
       r <- process_image cfg image_data fname (upload_content_type file) ;;
       logger_info ("Successfully processed " ++ fname) ;;
       ret r)
      [(ValueError, fun e =>
          logger_warning ("Invalid image file " ++ fname ++ ": " ++ exn_str e) ;;
          raise (HTTPException 400 ("Invalid image file: " ++ exn_str e)));
       (RuntimeError, fun e =>
          logger_error ("Model error processing " ++ fname ++ ": " ++ exn_str e) ;;
          raise (HTTPException 503
                   ("Model service unavailable: " ++ exn_str e)));
       (Exception_, fun e =>
          logger_error ("Unexpected error processing " ++ fname ++ ": "
                        ++ exn_str e) ;;
          raise (HTTPException 500
                   "Internal server error during image processing"))].

End Service.

(** ** Outcomes as the caller sees them *)

Inductive ErrorKind : Type :=
  | InvalidInput
  | ModelUnavailable
  | UnexpectedFailure.

(** The kind of an exception leaving [process_image], by the order of the
    [except] clauses of the route. *)
Definition error_kind (e : exn) : ErrorKind :=
  if isinstance e ValueError then InvalidInput
  else if isinstance e RuntimeError then ModelUnavailable
  else UnexpectedFailure.

(** The status the exception handlers of [app/main.py] answer with. *)
Definition response_status {A : Type} (r : result A) : Z :=
  match r with
  | Ok _ => 200
  | Raise e => if isinstance e HTTPException_ then status_code e else 500
  end.

(** 400, 503 and 500 as error kinds. *)
Definition kind_of_status (s : Z) : option ErrorKind :=
  if s =? 400 then Some InvalidInput
  else if s =? 503 then Some ModelUnavailable
  else if s =? 500 then Some UnexpectedFailure
  else None.

(** ** A miniature instance of the libraries

    Images of one gray level: five bytes, the magic "P5" (mode L) or "P6"
    (mode RGB), then width, height and the gray level. A file cut after the
    height is identified, but its pixel data does not load. Resampling a
    uniform image gives a uniform image. The model stub answers
    [0.7, 0.2, 0.1]. *)

Module Mini.

Record Img : Type := mkImg {
  mode : string;
  img_w : Z;
  img_h : Z;
  gray : byte;
  complete : bool
}.

Definition byteZ (b : byte) : Z := Z.of_N (Byte.to_N b).

Definition identify (bs : list byte) : option Img :=
  match bs with
  | [x50; x35; w; h; v] => Some (mkImg "L" (byteZ w) (byteZ h) v true)
  | [x50; x36; w; h; v] => Some (mkImg "RGB" (byteZ w) (byteZ h) v true)
  | [x50; x35; w; h] => Some (mkImg "L" (byteZ w) (byteZ h) x00 false)
  | [x50; x36; w; h] => Some (mkImg "RGB" (byteZ w) (byteZ h) x00 false)
  | _ => None
  end.

Definition load (im : Img) : option exn :=
  if complete im then None
  else Some (PyExc OSError "image file is truncated").

Definition bands (im : Img) : list string :=
  if String.eqb (mode im) "L" then ["L"] else ["R"; "G"; "B"].

Definition array (im : Img) : ndarray :=
  if String.eqb (mode im) "L"
  then mkArr [img_h im; img_w im]
             (repeat (inject_Z (byteZ (gray im)))
                     (Z.to_nat (img_h im * img_w im)))
  else mkArr [img_h im; img_w im; 3]
             (repeat (inject_Z (byteZ (gray im)))
                     (Z.to_nat (img_h im * img_w im * 3))).

Definition stub : Model :=
  mkModel (fun _ => Ok [[(7 # 10)%Q; (2 # 10)%Q; (1 # 10)%Q]]).

Definition load_model (path : string) : result Model :=
  if String.eqb path "/app/./models/lung_cancer_model.h5" then Ok stub
  else Raise (PyExc OSError "No file or directory found").

Definition isabs (p : string) : bool :=
  match p with
  | String "/"%char _ => true
  | _ => false
  end.

Definition libs : Libs := {|
  PILImage := Img;
  pil_identify := identify;
  pil_load := load;
  im_mode := mode;
  im_size := fun im => (img_w im, img_h im);
  im_getbands := bands;
  im_format := fun _ => Some "PPM";
  im_convert_L := fun im => mkImg "L" (img_w im) (img_h im) (gray im) true;
  im_resample :=
    fun sz im => mkImg (mode im) (fst sz) (snd sz) (gray im) true;
  np_array := array;
  np_mean := fun a => hd 0%Q (data a);
  np_std := fun _ => 0%Q;
  keras_load_model := load_model;
  os_path_isabs := isabs;
  os_path_abspath := fun p => "/app/" ++ p;
  clock := fun k => inject_Z (Z.of_nat k);
  utcnow_isoformat := fun _ => "2024-01-01T00:00:00"
|}.

(** A 512 x 512 all-white image, a valid upload, the same upload cut
    short, and the text of the repository's invalid-file test under an image
    content type. *)
Definition white512 : Img := mkImg "RGB" 512 512 xff true.

Definition gray_upload : list byte := [x50; x35; x08; x08; xff].

Definition cut_upload : list byte := [x50; x35; x08; x08].

(** A configuration whose target width is zero. *)
Definition zero_width : Settings :=
  mkSettings (50 * 1024 * 1024) "image/jpeg,image/png,image/tiff,image/bmp"
    "./models/lung_cancer_model.h5" "0,224" (1 # 2)%Q.

Definition text_bytes : list byte :=
  list_byte_of_string "This is not an image file".

Definition world0 : World := mkWorld (mkProcessor None false) [] 0.

Definition loaded : World := mkWorld (mkProcessor (Some stub) true) [] 0.

End Mini.

(** ** Vocabulary of the properties *)

(** The declared type is present, non-empty and on the list. *)
Definition declared_in (c : option string) (xs : list string) : Prop :=
  exists x, c = Some x /\ x <> "" /\ In x xs.

(** [i] is the first position of a greatest element of [ps]. *)
Definition first_max (ps : list Q) (i : nat) : Prop :=
  (i < length ps)%nat
  /\ (forall j, (j < length ps)%nat -> (nth j ps 0 <= nth i ps 0)%Q)
  /\ (forall j, (j < i)%nat -> (nth j ps 0 < nth i ps 0)%Q).

(** The four steps in the order the specification lists them: luminance
    conversion when the mode is not L, resize to the target, division by
    255, batch axis. *)
Definition spec_preprocess {L : Libs} (target : Z * Z) (im : PILImage)
  : ndarray :=
  let luminance := if String.eqb (im_mode im) "L" then im else im_convert_L im in
  let resized := im_resample target luminance in
  let scaled := np_div (np_array resized) 255 in
  np_expand_dims0 scaled.


(** A computation that leaves [self.model] and [self.model_loaded] alone,
    whether it returns or raises. *)
Definition preserves_self {A : Type} (c : M A) : Prop :=
  forall w, self (snd (c w)) = self w.

(** The world in which the route calls [process_image]. *)
Definition route_world (fname : string) (content_type : option string)
    (w : World) : World :=
  mkWorld (self w)
    (LogInfo ("Processing image: " ++ fname ++ " ("
              ++ str_of content_type ++ ")") :: events w)
    (ticks w).

(** The status the route answers with when [process_image] raises, by the
    kind of the exception. *)
Definition status_of_kind (k : ErrorKind) : Z :=
  match k with
  | InvalidInput => 400
  | ModelUnavailable => 503
  | UnexpectedFailure => 500
  end.

(** ** Further endpoints and auxiliaries *)

(** Characters of a string, all satisfying a test. *)
Fixpoint forallb_str (f : ascii -> bool) (s : string) : bool :=
  match s with
  | EmptyString => true
  | String c s' => f c && forallb_str f s'
  end.

(** The string starts, respectively ends, with a whitespace character. *)
Definition starts_space (s : string) : bool :=
  match s with
  | EmptyString => false
  | String c _ => PyStr.is_space c
  end.

Fixpoint ends_space (s : string) : bool :=
  match s with
  | EmptyString => false
  | String c EmptyString => PyStr.is_space c
  | String _ r => ends_space r
  end.

(** [s.count(ch)] *)
Fixpoint count_char (ch : ascii) (s : string) : nat :=
  match s with
  | EmptyString => O
  | String c s' => (if Ascii.eqb c ch then 1 else 0)%nat + count_char ch s'
  end.

Definition not_comma (c : ascii) : bool := negb (Ascii.eqb c ","%char).

Definition rbind {A B : Type} (r : result A) (k : A -> result B) : result B :=
  match r with
  | Ok a => k a
  | Raise e => Raise e
  end.

(** The part of [predict] between the forward pass and the second reading
    of the clock: label, confidence and the three probabilities. *)
Definition read_output (predictions : list (list Q))
  : result (string * Q * (Q * Q * Q)) :=
  rbind (getitem predictions 0) (fun class_probs =>
  rbind (np_argmax class_probs) (fun predicted_class_idx =>
  rbind (np_max class_probs) (fun conf =>
  rbind (getitem ["Benign Case"; "Malignant Case"; "Normal Case"]
           predicted_class_idx) (fun prediction_class =>
  rbind (getitem class_probs 0) (fun p0 =>
  rbind (getitem class_probs 1) (fun p1 =>
  rbind (getitem class_probs 2) (fun p2 =>
  Ok (prediction_class, conf, (p0, p1, p2))))))))).

(** The log after a clause [except Exception as e: logger.error(prefix + e)]
    has seen [e]. *)
Definition logged (prefix : string) (e : exn) (evs : list event)
  : list event :=
  if isinstance e Exception_ then LogError (prefix ++ exn_str e) :: evs
  else evs.

(** The attributes agree: a processor that reports its model as loaded
    holds a model. *)
Definition consistent (p : ImageProcessor) : Prop :=
  (model_loaded p = true -> model p <> None)
  /\ (model_loaded p = false -> model p = None).

Record HealthStatus : Type := mkHealthStatus {
  hs_model_loaded : bool;
  hs_supported_formats : list string;
  hs_max_file_size_mb : Q;
  hs_model_input_size : Z * Z
}.

Record HealthResponse : Type := mkHealthResponse {
  hr_status : string;
  hr_service : string;
  hr_version : string;
  hr_timestamp : string;
  hr_uptime_seconds : Q;
  hr_model_loaded : bool
}.

Record ModelInfo : Type := mkModelInfo {
  mi_model_loaded : bool;
  mi_supported_formats : list string;
  mi_max_file_size_mb : Q;
  mi_model_input_size : Z * Z;
  mi_confidence_threshold : Q
}.

Section Health.

Context {L : Libs}.

(** [ImageProcessor.get_health_status] *)
Definition get_health_status (cfg : Settings) : M HealthStatus :=
  p <- get_self ;;
  ret (mkHealthStatus (model_loaded p) (get_allowed_image_types cfg)
         (inject_Z (MAX_FILE_SIZE cfg) / inject_Z (1024 * 1024))%Q
         (get_model_input_size cfg)).

(** The route [/health]; [app_name] and [app_version] are
    [settings.APP_NAME] and [settings.APP_VERSION], [service_start_time] the
    module-level reading of the clock at import. *)
Definition health_check (cfg : Settings) (app_name app_version : string)
    (service_start_time : Q) : M HealthResponse :=
  try_except
    (current_time <- datetime_utcnow_isoformat ;;
     now_ <- time_time ;;
     let uptime := (now_ - service_start_time)%Q in
     processor_health <- get_health_status cfg ;;
     ret (mkHealthResponse "healthy" app_name app_version current_time uptime
            (hs_model_loaded processor_health)))
    [(Exception_, fun e =>
        logger_error ("Health check failed: " ++ exn_str e) ;;
        raise (HTTPException 503 "Service unhealthy"))].

(** The route [/model/info] *)
Definition get_model_info (cfg : Settings) : M ModelInfo :=
  try_except
    (health_status <- get_health_status cfg ;;
     ret (mkModelInfo (hs_model_loaded health_status)
            (hs_supported_formats health_status)
            (hs_max_file_size_mb health_status)
            (hs_model_input_size health_status)
            (CONFIDENCE_THRESHOLD cfg)))
    [(Exception_, fun e =>
        logger_error ("Error getting model info: " ++ exn_str e) ;;
        raise (HTTPException 500 "Error retrieving model information"))].

End Health.

(** ** The deployment script ([deploy.py], [check_api_health])

    The outcome of one [requests.get]: the call raised, or it answered with
    a status code and a body; the body is [None] when [response.json()] or
    [data.get] raises, else the value found under "status". *)

Inductive probe : Type :=
  | Unreachable
  | Answer (status_code_ : Z) (body : option (option string)).

Inductive deploy_msg : Type :=
  | MsgChecking (url : string)
  | MsgHealthy (status_ : option string)
  | MsgFailed.

(** What the script does to the outside, most recent first. *)
Inductive deploy_event : Type :=
  | Print (m : deploy_msg)
  | Get (url : string)
  | Sleep (seconds : Z).

(** One pass of the [try] block: [Some st] when it returns [True]. Every
    exception is swallowed by the bare [except]. *)
Definition probe_ok (p : probe) : option (option string) :=
  match p with
  | Unreachable => None
  | Answer code body => if code =? 200 then body else None
  end.

(** The loop [for i in range(timeout)], from index [i] with [n] iterations
    left; [outcome k] is the outcome of the request of iteration [k]. *)
Fixpoint health_loop (outcome : nat -> probe) (url : string) (timeout : Z)
    (n : nat) (i : nat) (trace : list deploy_event)
  : bool * list deploy_event :=
  match n with
  | O => (false, Print MsgFailed :: trace)
  | S n' =>
      let trace1 := Get url :: trace in
      match probe_ok (outcome i) with
      | Some st => (true, Print (MsgHealthy st) :: trace1)
      | None =>
          let trace2 :=
            if Z.of_nat i <? timeout - 1 then Sleep 1 :: trace1 else trace1 in
          health_loop outcome url timeout n' (S i) trace2
      end
  end.

Definition check_api_health (outcome : nat -> probe) (url : string)
    (timeout : Z) : bool * list deploy_event :=
  health_loop outcome url timeout (Z.to_nat timeout) 0
    [Print (MsgChecking url)].

Fixpoint count_gets (t : list deploy_event) : nat :=
  match t with
  | [] => O
  | Get _ :: r => S (count_gets r)
  | _ :: r => count_gets r
  end.

Fixpoint count_sleeps (t : list deploy_event) : nat :=
  match t with
  | [] => O
  | Sleep _ :: r => S (count_sleeps r)
  | _ :: r => count_sleeps r
  end.

(** * Properties *)

(** ** Configuration defaults *)

Example allowed_default :
  get_allowed_image_types settings
  = ["image/jpeg"; "image/png"; "image/tiff"; "image/bmp"].
Proof. reflexivity. Qed.

Example input_size_default : get_model_input_size settings = (224, 224).
Proof. reflexivity. Qed.

Example max_default : MAX_FILE_SIZE settings = 52428800.
Proof. reflexivity. Qed.

Example allowed_with_blanks :
  get_allowed_image_types
    (mkSettings 10 " image/png , image/bmp" "m.h5" "64, 32" (1 # 2)%Q)
  = ["image/png"; "image/bmp"].
Proof. reflexivity. Qed.

Example input_size_fallback :
  get_model_input_size (mkSettings 10 "image/png" "m.h5" "224x224" (1 # 2)%Q)
  = (224, 224).
Proof. reflexivity. Qed.

(** ** Validation *)

Lemma mem_In (x : string) (xs : list string) :
  PyStr.mem x xs = true <-> In x xs.
Proof.
  unfold PyStr.mem. rewrite existsb_exists. split.
  - intros [y [Hy Heq]]. apply String.eqb_eq in Heq. now subst.
  - intros H. exists x. split; [assumption | apply String.eqb_refl].
Qed.

Lemma type_check_true (c : option string) (xs : list string) :
  py_not_str c || negb (str_in c xs) = false <-> declared_in c xs.
Proof.
  unfold declared_in. split.
  - intros H. apply orb_false_iff in H. destruct H as [H1 H2].
    apply negb_false_iff in H2.
    destruct c as [x|]; [|discriminate].
    exists x. repeat split.
    + intros ->. discriminate.
    + now apply mem_In.
  - intros [x [-> [Hne Hin]]]. apply orb_false_iff. split.
    + destruct x; [congruence | reflexivity].
    + apply negb_false_iff. now apply mem_In.
Qed.

(** With a declared type on the list, only the size decides. *)
Lemma validate_image_size (cfg : Settings) (c : option string) (n : Z) :
  declared_in c (get_allowed_image_types cfg) ->
  validate_image cfg c n = negb (n >? MAX_FILE_SIZE cfg).
Proof.
  intros H. apply type_check_true in H.
  unfold validate_image. rewrite H. now destruct (n >? MAX_FILE_SIZE cfg).
Qed.

(** C2: [validate_image] answers [false] exactly when the declared content
    type is absent or empty, or is not on the configured allow-list, or the
    size exceeds the configured maximum, and [true] in every other case; by
    default the list is the four JPEG, PNG, TIFF and BMP MIME strings and the
    maximum is 52428800 bytes. *)
Theorem validate_image_exact :
  (forall (cfg : Settings) (c : option string) (n : Z),
      (validate_image cfg c n = false <->
         (c = None \/ c = Some ""
          \/ (forall x, c = Some x -> ~ In x (get_allowed_image_types cfg))
          \/ n > MAX_FILE_SIZE cfg))
      /\ (validate_image cfg c n = true <->
            ~ (c = None \/ c = Some ""
               \/ (forall x, c = Some x -> ~ In x (get_allowed_image_types cfg))
               \/ n > MAX_FILE_SIZE cfg)))
  /\ get_allowed_image_types settings
     = ["image/jpeg"; "image/png"; "image/tiff"; "image/bmp"]
  /\ MAX_FILE_SIZE settings = 52428800.
Proof.
  assert (E : forall cfg c n,
             validate_image cfg c n = false <->
             (c = None \/ c = Some ""
              \/ (forall x, c = Some x -> ~ In x (get_allowed_image_types cfg))
              \/ n > MAX_FILE_SIZE cfg)).
  { intros cfg c n. split.
    - intros H. unfold validate_image in H.
      destruct (py_not_str c || negb (str_in c (get_allowed_image_types cfg)))
        eqn:T.
      + apply orb_true_iff in T. destruct T as [T | T].
        * destruct c as [[|a s]|]; simpl in T; try discriminate; auto.
        * right; right; left. intros x ->. simpl in T.
          apply negb_true_iff in T. intros Hin. apply mem_In in Hin. congruence.
      + destruct (n >? MAX_FILE_SIZE cfg) eqn:G; [|discriminate].
        right; right; right. apply Z.gtb_lt in G. lia.
    - intros H. unfold validate_image.
      destruct (py_not_str c || negb (str_in c (get_allowed_image_types cfg)))
        eqn:T; [reflexivity|].
      apply type_check_true in T. destruct T as [x [-> [Hne Hin]]].
      destruct H as [H | [H | [H | H]]].
      + discriminate.
      + congruence.
      + exfalso. exact (H x eq_refl Hin).
      + assert (G : (n >? MAX_FILE_SIZE cfg) = true) by (apply Z.gtb_lt; lia).
        now rewrite G. }
  split; [|split; reflexivity].
  intros cfg c n. split; [apply E|].
  rewrite <- E. destruct (validate_image cfg c n); split; congruence.
Qed.

(** C9: for every content type on the default allow-list, a size of exactly
    52428800 bytes (the configured maximum) is accepted, and a size is
    rejected only when it is strictly greater than the maximum. *)
Theorem validate_image_boundary (c : string) :
  In c (get_allowed_image_types settings) ->
  MAX_FILE_SIZE settings = 52428800
  /\ validate_image settings (Some c) 52428800 = true
  /\ (forall n, validate_image settings (Some c) n = false <-> n > 52428800).
Proof.
  intros Hin.
  assert (D : declared_in (Some c) (get_allowed_image_types settings)).
  { exists c. repeat split; [|assumption].
    intros ->. simpl in Hin. intuition discriminate. }
  split; [reflexivity|]. split.
  - rewrite (validate_image_size _ _ _ D). reflexivity.
  - intros n. rewrite (validate_image_size _ _ _ D).
    change (MAX_FILE_SIZE settings) with 52428800.
    destruct (n >? 52428800) eqn:G; simpl.
    + apply Z.gtb_lt in G. split; [lia | reflexivity].
    + split; [discriminate|]. intros H.
      assert (G' : (n >? 52428800) = true) by (apply Z.gtb_lt; lia). congruence.
Qed.

Lemma validate_image_boundary_witness :
  In "image/png" (get_allowed_image_types settings)
  /\ validate_image settings (Some "image/png") 52428800 = true
  /\ validate_image settings (Some "image/png") 52428801 = false.
Proof.
  assert (H : In "image/png" (get_allowed_image_types settings)).
  { simpl. right. left. reflexivity. }
  split; [exact H|].
  destruct (validate_image_boundary "image/png" H) as [_ [Hacc Hrej]].
  split; [exact Hacc|]. apply Hrej. lia.
Defined.

(** ** The maximum scan *)

Lemma Qlt_bool_true (a b : Q) : Qlt_bool a b = true -> (a < b)%Q.
Proof.
  unfold Qlt_bool. intros H. apply negb_true_iff in H.
  apply Qnot_le_lt. intros K. apply Qle_bool_iff in K. congruence.
Qed.

Lemma Qlt_bool_false (a b : Q) : Qlt_bool a b = false -> (b <= a)%Q.
Proof.
  unfold Qlt_bool. intros H. apply negb_false_iff in H.
  now apply Qle_bool_iff.
Qed.

(** The scan over three samples, case by case. *)
Lemma max_scan3 (p0 p1 p2 : Q) :
  exists i : nat,
    max_scan 0 p0 1 [p1; p2] = (Z.of_nat i, nth i [p0; p1; p2] 0%Q)
    /\ first_max [p0; p1; p2] i.
Proof.
  unfold first_max. simpl.
  destruct (Qlt_bool p0 p1) eqn:A.
  - destruct (Qlt_bool p1 p2) eqn:B.
    + exists 2%nat. apply Qlt_bool_true in A, B. split; [reflexivity|].
      split; [lia|]. split; intros j Hj;
        destruct j as [|[|[|j]]]; simpl; try lia; lra.
    + exists 1%nat. apply Qlt_bool_true in A. apply Qlt_bool_false in B.
      split; [reflexivity|].
      split; [lia|]. split; intros j Hj;
        destruct j as [|[|[|j]]]; simpl; try lia; lra.
  - destruct (Qlt_bool p0 p2) eqn:B.
    + exists 2%nat. apply Qlt_bool_false in A. apply Qlt_bool_true in B.
      split; [reflexivity|].
      split; [lia|]. split; intros j Hj;
        destruct j as [|[|[|j]]]; simpl; try lia; lra.
    + exists 0%nat. apply Qlt_bool_false in A, B. split; [reflexivity|].
      split; [lia|]. split; intros j Hj;
        destruct j as [|[|[|j]]]; simpl; try lia; lra.
Qed.

Example argmax_tie : np_argmax [(2 # 5)%Q; (2 # 5)%Q; (1 # 5)%Q] = Ok 0.
Proof. reflexivity. Qed.

Example argmax_last : np_argmax [(1 # 5)%Q; (2 # 5)%Q; (2 # 5)%Q] = Ok 1.
Proof. reflexivity. Qed.

(** ** Prediction *)

Section Prediction.

Context {L : Libs}.

(** A call of [predict] on a loaded processor whose model answers a batch
    that starts with three samples. *)
Lemma predict_loaded (w : World) (x : ndarray) (m : Model)
    (p0 p1 p2 : Q) (rest : list (list Q)) :
  model_loaded (self w) = true ->
  model (self w) = Some m ->
  forward m x = Ok ([p0; p1; p2] :: rest) ->
  exists i : nat,
    first_max [p0; p1; p2] i
    /\ predict x w
       = (Ok (mkPredictionResult
                (nth i class_labels "") (nth i [p0; p1; p2] 0%Q)
                [("Benign Case", p0); ("Malignant Case", p1);
                 ("Normal Case", p2)]
                ((clock (S (ticks w)) - clock (ticks w)) * 1000)%Q),
          mkWorld (self w) (ModelPredict x :: events w) (S (S (ticks w)))).
Proof.
  intros Hl Hm Hf.
  destruct (max_scan3 p0 p1 p2) as [i [Hs Hi]].
  exists i. split; [exact Hi|].
  unfold predict, try_except, bind, time_time, get_self, model_predict,
    emit, lift, ret, raise. simpl.
  rewrite Hl. simpl. unfold bind, get_self. simpl.
  rewrite Hm. unfold bind. simpl. rewrite Hf. cbn -[max_scan]. rewrite Hs.
  cbn [fst snd].
  destruct Hi as [Hlt _]. simpl in Hlt.
  destruct i as [|[|[|i]]]; try lia; reflexivity.
Qed.

End Prediction.

(** C3: on a loaded processor whose model answers three probabilities,
    [predict] returns the label found in ["Benign Case"; "Malignant Case";
    "Normal Case"] at the first index of the greatest probability, with that
    probability as confidence; for the answer [0.7, 0.2, 0.1] the result is
    "Benign Case" with confidence 0.7. *)
Theorem predict_label_first_max {L : Libs} (w : World) (x : ndarray)
    (m : Model) (p0 p1 p2 : Q) (rest : list (list Q)) :
  model_loaded (self w) = true ->
  model (self w) = Some m ->
  forward m x = Ok ([p0; p1; p2] :: rest) ->
  exists (i : nat) (r : PredictionResult),
    run (predict x) w = Ok r
    /\ first_max [p0; p1; p2] i
    /\ prediction r = nth i ["Benign Case"; "Malignant Case"; "Normal Case"] ""
    /\ confidence r = nth i [p0; p1; p2] 0%Q
    /\ ([p0; p1; p2] = [(7 # 10)%Q; (2 # 10)%Q; (1 # 10)%Q] ->
        prediction r = "Benign Case" /\ confidence r = (7 # 10)%Q).
Proof.
  intros Hl Hm Hf.
  destruct (predict_loaded w x m p0 p1 p2 rest Hl Hm Hf) as [i [Hi Hrun]].
  exists i. eexists. unfold run. rewrite Hrun. simpl.
  split; [reflexivity|]. split; [exact Hi|].
  split; [reflexivity|]. split; [reflexivity|].
  intros E. injection E as -> -> ->.
  destruct Hi as [Hlt [_ Hfirst]]. simpl in Hlt.
  destruct i as [|[|[|i]]]; try lia.
  - split; reflexivity.
  - exfalso. specialize (Hfirst 0%nat). simpl in Hfirst.
    assert (K : (0 < 1)%nat) by lia. specialize (Hfirst K). lra.
  - exfalso. specialize (Hfirst 0%nat). simpl in Hfirst.
    assert (K : (0 < 2)%nat) by lia. specialize (Hfirst K). lra.
Qed.

Lemma predict_label_first_max_witness :
  exists (i : nat) (r : PredictionResult),
    run (predict (L := Mini.libs) (mkArr [1; 1; 1] [1%Q])) Mini.loaded = Ok r
    /\ first_max [(7 # 10)%Q; (2 # 10)%Q; (1 # 10)%Q] i
    /\ prediction r = nth i ["Benign Case"; "Malignant Case"; "Normal Case"] ""
    /\ confidence r = nth i [(7 # 10)%Q; (2 # 10)%Q; (1 # 10)%Q] 0%Q
    /\ ([(7 # 10)%Q; (2 # 10)%Q; (1 # 10)%Q]
        = [(7 # 10)%Q; (2 # 10)%Q; (1 # 10)%Q] ->
        prediction r = "Benign Case" /\ confidence r = (7 # 10)%Q).
Proof.
  apply (predict_label_first_max (L := Mini.libs) Mini.loaded
           (mkArr [1; 1; 1] [1%Q]) Mini.stub
           (7 # 10)%Q (2 # 10)%Q (1 # 10)%Q []); reflexivity.
Defined.

Example predict_stub :
  option_map (fun r => (prediction r, confidence r))
    (match run (predict (L := Mini.libs) (mkArr [1; 1; 1] [1%Q])) Mini.loaded with
     | Ok r => Some r
     | Raise _ => None
     end)
  = Some ("Benign Case", (7 # 10)%Q).
Proof. reflexivity. Qed.

(** ** Preprocessing *)


Lemma Mini_libs_ok : LibsOk Mini.libs.
Proof.
  constructor; simpl.
  - reflexivity.
  - reflexivity.
  - reflexivity.
  - reflexivity.
  - reflexivity.
  - intros im Hm. unfold Mini.array. rewrite Hm. simpl.
    split; [reflexivity|]. split; [apply repeat_length|].
    apply Forall_forall. intros q Hq. apply repeat_spec in Hq. subst q.
    unfold Mini.byteZ.
    pose proof (Byte.to_N_bounded (Mini.gray im)) as B.
    change 0%Q with (inject_Z 0). change 255%Q with (inject_Z 255).
    rewrite <- !Zle_Qle. lia.
Qed.

(** The luminance image that [preprocess_image] resizes. *)
Lemma luminance_mode {L : Libs} (ok : LibsOk L) (im : PILImage) :
  im_mode (if String.eqb (im_mode im) "L" then im else im_convert_L im) = "L"
  /\ (pil_load im = None ->
      pil_load (if String.eqb (im_mode im) "L" then im else im_convert_L im)
      = None).
Proof.
  destruct (String.eqb (im_mode im) "L") eqn:E.
  - split; [now apply String.eqb_eq | auto].
  - split; [apply (convert_mode L ok) | intros _; apply (convert_loaded L ok)].
Qed.

(** On an image whose pixels load and for a positive target size every
    step of [preprocess_image] succeeds. *)
Lemma preprocess_image_ok {L : Libs} (ok : LibsOk L) (cfg : Settings)
    (im : PILImage) (tw th : Z) :
  pil_load im = None ->
  get_model_input_size cfg = (tw, th) ->
  0 < tw -> 0 < th ->
  preprocess_image cfg im = Ok (spec_preprocess (tw, th) im).
Proof.
  intros Hload Hsz Hw Hh.
  destruct (luminance_mode ok im) as [_ Hl]. specialize (Hl Hload).
  assert (R : (tw <=? 0) || (th <=? 0) = false).
  { apply orb_false_iff. split; apply Z.leb_gt; assumption. }
  unfold preprocess_image, spec_preprocess, Image_convert_L, Image_resize,
    np_array_of.
  rewrite Hsz. cbn [fst snd]. rewrite R.
  destruct (String.eqb (im_mode im) "L"); cbn [negb].
  - rewrite Hload. now rewrite (resample_loaded L ok).
  - rewrite Hload, Hl. now rewrite (resample_loaded L ok).
Qed.




Example preprocess_white_small :
  preprocess_image (L := Mini.libs)
    (mkSettings 10 "image/png" "m.h5" "2,1" (1 # 2)%Q) Mini.white512
  = Ok (mkArr [1; 1; 2] [(255 / 255)%Q; (255 / 255)%Q]).
Proof. reflexivity. Qed.

Example preprocess_truncated :
  preprocess_image (L := Mini.libs) settings
    (Mini.mkImg "RGB" 8 8 x00 false)
  = Raise (PyExc OSError "image file is truncated").
Proof. reflexivity. Qed.

(** ** The frame of the processor state *)

Lemma preserves_ret {A : Type} (a : A) : preserves_self (ret a).
Proof. intros w. reflexivity. Qed.

Lemma preserves_raise {A : Type} (e : exn) : preserves_self (@raise A e).
Proof. intros w. reflexivity. Qed.

Lemma preserves_lift {A : Type} (r : result A) : preserves_self (lift r).
Proof. intros w. reflexivity. Qed.

Lemma preserves_emit (ev : event) : preserves_self (emit ev).
Proof. intros w. reflexivity. Qed.

Lemma preserves_get_self : preserves_self get_self.
Proof. intros w. reflexivity. Qed.

Lemma preserves_time {L : Libs} : preserves_self time_time.
Proof. intros w. reflexivity. Qed.

Lemma preserves_utcnow {L : Libs} : preserves_self datetime_utcnow_isoformat.
Proof. intros w. reflexivity. Qed.

Lemma preserves_bind {A B : Type} (c : M A) (k : A -> M B) :
  preserves_self c -> (forall a, preserves_self (k a)) ->
  preserves_self (bind c k).
Proof.
  intros Hc Hk w. unfold bind. specialize (Hc w).
  destruct (c w) as [[a | e] w']; simpl in *.
  - now rewrite Hk.
  - assumption.
Qed.

Lemma preserves_select {A : Type} (e : exn)
    (clauses : list (exn_class * (exn -> M A))) :
  Forall (fun ch => forall e', preserves_self (snd ch e')) clauses ->
  preserves_self (select_handler e clauses).
Proof.
  induction 1 as [| [c h] rest Hh _ IH]; simpl.
  - apply preserves_raise.
  - destruct (isinstance e c); [apply Hh | exact IH].
Qed.

Lemma preserves_try {A : Type} (body : M A)
    (clauses : list (exn_class * (exn -> M A))) :
  preserves_self body ->
  Forall (fun ch => forall e', preserves_self (snd ch e')) clauses ->
  preserves_self (try_except body clauses).
Proof.
  intros Hb Hc w. unfold try_except. specialize (Hb w).
  destruct (body w) as [[a | e] w']; simpl in *.
  - assumption.
  - now rewrite (preserves_select e clauses Hc).
Qed.

Ltac frame_step :=
  first
    [ apply preserves_ret | apply preserves_raise | apply preserves_lift
    | apply preserves_emit | apply preserves_get_self
    | apply preserves_time | apply preserves_utcnow
    | apply preserves_bind; [| intros ?]
    | apply preserves_try
    | apply Forall_cons; [simpl; intros ? |]
    | apply Forall_nil
    | match goal with
      | |- preserves_self (if ?b then _ else _) => destruct b
      | |- preserves_self (match ?x with _ => _ end) => destruct x
      end ].

Ltac frame := repeat (cbv beta; frame_step).

Section Frame.

Context {L : Libs}.

Lemma preserves_model_predict (x : ndarray) : preserves_self (model_predict x).
Proof. unfold model_predict. frame. Qed.

Lemma preserves_predict (x : ndarray) : preserves_self (predict x).
Proof.
  unfold predict, logger_error.
  pose proof (preserves_model_predict x) as Hm.
  repeat (cbv beta; first [exact Hm | frame_step]).
Qed.

Lemma preserves_process_image (cfg : Settings) (image_data : list byte)
    (fname : string) (content_type : option string) :
  preserves_self (process_image cfg image_data fname content_type).
Proof.
  unfold process_image, logger_error.
  repeat (cbv beta zeta; first [apply preserves_predict | frame_step]).
Qed.

Lemma preserves_predict_image (cfg : Settings) (file : UploadFile) :
  preserves_self (predict_image cfg file).
Proof.
  unfold predict_image, logger_error, logger_warning, logger_info.
  repeat (cbv beta zeta; first [apply preserves_process_image | frame_step]).
Qed.

End Frame.

(** Construction is the one place that writes the two attributes. *)
Lemma init_sets_processor {L : Libs} (cfg : Settings) (w : World) :
  self (after (__init__ cfg) w)
  = match keras_load_model (get_model_path cfg) with
    | Ok m => mkProcessor (Some m) true
    | Raise _ => mkProcessor None false
    end.
Proof.
  unfold after, __init__, _load_model, try_except, bind, set_model,
    set_model_loaded, lift, logger_error, emit. simpl.
  destruct (keras_load_model (get_model_path cfg)) as [m | e]; simpl.
  - reflexivity.
  - unfold isinstance. destruct (exn_cls e); reflexivity.
Qed.

Example init_loads_stub :
  self (after (__init__ (L := Mini.libs) settings) Mini.world0)
  = mkProcessor (Some Mini.stub) true.
Proof. reflexivity. Qed.

Example init_load_failure :
  self (after (__init__ (L := Mini.libs)
                 (mkSettings 10 "image/png" "/" "2,2" (1 # 2)%Q))
              Mini.loaded)
  = mkProcessor None false.
Proof. reflexivity. Qed.

(** C10: no pipeline operation writes the processor state. In every world
    and for every input, whether the call returns or raises, the calls of
    [validate_image], [preprocess_image], [predict], [process_image] and of
    the route leave the model handle and the [model_loaded] flag as they
    were; the two attributes are set by [__init__], from the outcome of
    loading the model. *)
Theorem pipeline_preserves_processor {L : Libs} (cfg : Settings)
    (content_type : option string) (file_size : Z) (im : PILImage)
    (x : ndarray) (image_data : list byte) (fname : string)
    (file : UploadFile) (w : World) :
  self (after (ret (validate_image cfg content_type file_size)) w) = self w
  /\ self (after (lift (preprocess_image cfg im)) w) = self w
  /\ self (after (predict x) w) = self w
  /\ self (after (process_image cfg image_data fname content_type) w) = self w
  /\ self (after (predict_image cfg file) w) = self w
  /\ self (after (__init__ cfg) w)
     = match keras_load_model (get_model_path cfg) with
       | Ok m => mkProcessor (Some m) true
       | Raise _ => mkProcessor None false
       end.
Proof.
  repeat split.
  - apply (preserves_predict x).
  - apply (preserves_process_image cfg image_data fname content_type).
  - apply (preserves_predict_image cfg file).
  - apply init_sets_processor.
Qed.

(** ** Running the pipeline *)

Section Pipeline.

Context {L : Libs}.

(** [predict] on a processor whose model never loaded: the guard raises
    before the model is touched. *)
Lemma predict_unloaded (w : World) (x : ndarray) :
  model_loaded (self w) = false ->
  predict x w
  = (Raise (PyExc RuntimeError "Model not loaded"),
     mkWorld (self w)
       (LogError "Prediction failed: Model not loaded" :: events w)
       (S (ticks w))).
Proof.
  intros Hl.
  unfold predict, try_except, bind, time_time, get_self. simpl.
  rewrite Hl. reflexivity.
Qed.

(** [process_image] once validation, decoding, the loading of the pixels
    and preprocessing have succeeded: what remains is the prediction and the
    response. *)
Lemma process_image_decoded (cfg : Settings) (image_data : list byte)
    (fname : string) (content_type : option string) (im : PILImage)
    (t : ndarray) (w : World) :
  validate_image cfg content_type (Z.of_nat (length image_data)) = true ->
  pil_identify image_data = Some im ->
  pil_load im = None ->
  preprocess_image cfg im = Ok t ->
  process_image cfg image_data fname content_type w
  = try_except
      (prediction_results <- predict t ;;
       pr <- lift (PredictionResult_validate prediction_results) ;;
       ts <- datetime_utcnow_isoformat ;;
       ret (mkPredictionResponse "success" fname
              (extract_image_info im (Some (Z.of_nat (length image_data))))
              (calculate_image_stats (np_array im)
                 (Some (Z.of_nat (length image_data))))
              pr "Image processed successfully" ts))
      [(Exception_, fun e =>
          logger_error ("Image processing failed: " ++ exn_str e) ;;
          raise e)] w.
Proof.
  intros Hv Hd Hload Hp.
  unfold process_image, Image_open. rewrite Hv, Hd. simpl.
  unfold bind at 1. simpl. unfold try_except.
  unfold bind at 1. unfold lift at 1.
  unfold bind at 1. unfold lift at 1. unfold np_array_of. rewrite Hload.
  unfold bind at 1. unfold lift at 1. rewrite Hp.
  reflexivity.
Qed.

(** [process_image] when the container is identified but the pixels do not
    load: [np.array(image)] raises before preprocessing and prediction. *)
Lemma process_image_load_raises (cfg : Settings) (image_data : list byte)
    (fname : string) (content_type : option string) (im : PILImage)
    (e : exn) (w : World) :
  validate_image cfg content_type (Z.of_nat (length image_data)) = true ->
  pil_identify image_data = Some im ->
  pil_load im = Some e ->
  process_image cfg image_data fname content_type w
  = (Raise e,
     mkWorld (self w) (logged "Image processing failed: " e (events w))
       (ticks w)).
Proof.
  intros Hv Hd Hload.
  unfold process_image, Image_open. rewrite Hv, Hd. simpl.
  unfold bind at 1. simpl. unfold try_except.
  unfold bind at 1. unfold lift at 1.
  unfold bind at 1. unfold lift at 1. unfold np_array_of. rewrite Hload.
  simpl.
  unfold logged, logger_error, emit, bind, raise.
  destruct (isinstance e Exception_); [reflexivity|]. now destruct w.
Qed.

(** [process_image] when preprocessing raises. *)
Lemma process_image_preprocess_raises (cfg : Settings)
    (image_data : list byte) (fname : string) (content_type : option string)
    (im : PILImage) (e : exn) (w : World) :
  validate_image cfg content_type (Z.of_nat (length image_data)) = true ->
  pil_identify image_data = Some im ->
  pil_load im = None ->
  preprocess_image cfg im = Raise e ->
  process_image cfg image_data fname content_type w
  = (Raise e,
     mkWorld (self w) (logged "Image processing failed: " e (events w))
       (ticks w)).
Proof.
  intros Hv Hd Hload Hp.
  unfold process_image, Image_open. rewrite Hv, Hd. simpl.
  unfold bind at 1. simpl. unfold try_except.
  unfold bind at 1. unfold lift at 1.
  unfold bind at 1. unfold lift at 1. unfold np_array_of. rewrite Hload.
  unfold bind at 1. unfold lift at 1. rewrite Hp. simpl.
  unfold logged, logger_error, emit, bind, raise.
  destruct (isinstance e Exception_); [reflexivity|]. now destruct w.
Qed.

(** [process_image] when decoding fails. *)
Lemma process_image_undecodable (cfg : Settings) (image_data : list byte)
    (fname : string) (content_type : option string) (w : World) :
  validate_image cfg content_type (Z.of_nat (length image_data)) = true ->
  pil_identify image_data = None ->
  process_image cfg image_data fname content_type w
  = (Raise (PyExc UnidentifiedImageError "cannot identify image file"),
     mkWorld (self w)
       (LogError "Image processing failed: cannot identify image file"
          :: events w)
       (ticks w)).
Proof.
  intros Hv Hd.
  unfold process_image, Image_open. rewrite Hv, Hd. reflexivity.
Qed.

(** [process_image] when validation fails: [ValueError], raised outside
    the [try] block. *)
Lemma process_image_invalid (cfg : Settings) (image_data : list byte)
    (fname : string) (content_type : option string) (w : World) :
  validate_image cfg content_type (Z.of_nat (length image_data)) = false ->
  process_image cfg image_data fname content_type w
  = (Raise (PyExc ValueError "Invalid image file"), w).
Proof.
  intros Hv. unfold process_image. rewrite Hv. reflexivity.
Qed.

Lemma route_maps_kind (cfg : Settings) (fname : string)
    (content_type : option string) (image_data : list byte) (w : World)
    (e : exn) :
  fname <> "" ->
  py_not_str content_type = false ->
  image_data <> [] ->
  run (process_image cfg image_data fname content_type)
      (route_world fname content_type w) = Raise e ->
  response_status
    (run (predict_image cfg (mkUpload (Some fname) content_type image_data)) w)
  = status_of_kind (error_kind e).
Proof.
  intros Hf Hc Hd Hr.
  unfold run, predict_image. simpl.
  destruct fname as [| a fname']; [congruence|]. simpl.
  rewrite Hc.
  unfold bind at 1. unfold logger_info at 1, emit at 1. simpl.
  unfold try_except.
  destruct image_data as [| b bs]; [congruence|].
  unfold bind at 1. unfold ret at 1.
  unfold bind at 1.
  unfold run, route_world in Hr. simpl in Hr.
  destruct (process_image cfg (b :: bs) (String a fname') content_type _)
    as [r w'] eqn:E.
  simpl in Hr. subst r. simpl.
  unfold error_kind.
  destruct (isinstance e ValueError) eqn:V; [reflexivity|].
  destruct (isinstance e RuntimeError) eqn:R; [reflexivity|].
  destruct (isinstance e Exception_) eqn:X; [reflexivity|].
  simpl. unfold raise.  simpl.
  unfold isinstance in *. destruct (exn_cls e); try discriminate; reflexivity.
Qed.

End Pipeline.

(** ** Outcomes of the pipeline *)

Lemma validate_true_declared (cfg : Settings) (c : option string) (n : Z) :
  validate_image cfg c n = true -> py_not_str c = false.
Proof.
  unfold validate_image. intros H.
  destruct (py_not_str c); [discriminate | reflexivity].
Qed.


(** [process_image] under a target size that is not positive, on an image
    whose pixels load: the resize step raises. *)
Lemma process_image_bad_target {L : Libs} (ok : LibsOk L) (cfg : Settings)
    (image_data : list byte) (fname : string) (content_type : option string)
    (im : PILImage) (w : World) :
  validate_image cfg content_type (Z.of_nat (length image_data)) = true ->
  pil_identify image_data = Some im ->
  pil_load im = None ->
  fst (get_model_input_size cfg) <= 0 \/ snd (get_model_input_size cfg) <= 0 ->
  process_image cfg image_data fname content_type w
  = (Raise (PyExc ValueError "height and width must be > 0"),
     mkWorld (self w)
       (LogError "Image processing failed: height and width must be > 0"
          :: events w)
       (ticks w)).
Proof.
  intros Hv Hd Hload Hsz.
  assert (R : preprocess_image cfg im
              = Raise (PyExc ValueError "height and width must be > 0")).
  { destruct (luminance_mode ok im) as [_ Hl]. specialize (Hl Hload).
    assert (B : (fst (get_model_input_size cfg) <=? 0)
                || (snd (get_model_input_size cfg) <=? 0) = true).
    { apply orb_true_iff. destruct Hsz; [left | right]; now apply Z.leb_le. }
    unfold preprocess_image, Image_convert_L, Image_resize.
    destruct (String.eqb (im_mode im) "L"); cbn [negb].
    - now rewrite Hload, B.
    - now rewrite Hload, Hl, B. }
  now rewrite (process_image_preprocess_raises cfg image_data fname
                 content_type im _ w Hv Hd Hload R).
Qed.







(** ** Payloads that are not images, and empty payloads *)

(** C1: a non-empty payload that passes validation but that no Pillow
    plugin identifies makes [process_image] raise [UnidentifiedImageError],
    an [OSError]: neither [except ValueError] nor [except RuntimeError] of
    the route takes it, so its kind is UnexpectedFailure and the route
    answers 500, where the specification expects InvalidInput and 400. *)
Theorem undecodable_is_unexpected_failure {L : Libs} (cfg : Settings)
    (image_data : list byte) (fname : string) (content_type : option string)
    (w : World) :
  image_data <> [] ->
  validate_image cfg content_type (Z.of_nat (length image_data)) = true ->
  pil_identify image_data = None ->
  (exists e : exn,
      run (process_image cfg image_data fname content_type) w = Raise e
      /\ exn_cls e = UnidentifiedImageError
      /\ error_kind e = UnexpectedFailure
      /\ error_kind e <> InvalidInput)
  /\ (fname <> "" ->
      response_status
        (run (predict_image cfg
                (mkUpload (Some fname) content_type image_data)) w) = 500).
Proof.
  intros Hne Hv Hd. split.
  - exists (PyExc UnidentifiedImageError "cannot identify image file").
    unfold run.
    rewrite (process_image_undecodable cfg image_data fname content_type w
               Hv Hd).
    repeat split; discriminate.
  - intros Hf.
    rewrite (route_maps_kind cfg fname content_type image_data w
               (PyExc UnidentifiedImageError "cannot identify image file") Hf
               (validate_true_declared _ _ _ Hv) Hne).
    + reflexivity.
    + unfold run.
      now rewrite (process_image_undecodable cfg image_data fname content_type
                     _ Hv Hd).
Qed.

Lemma undecodable_is_unexpected_failure_witness :
  (exists e : exn,
      run (process_image (L := Mini.libs) settings Mini.text_bytes "test.jpg"
             (Some "image/jpeg")) Mini.loaded = Raise e
      /\ exn_cls e = UnidentifiedImageError
      /\ error_kind e = UnexpectedFailure
      /\ error_kind e <> InvalidInput)
  /\ ("test.jpg" <> "" ->
      response_status
        (run (predict_image (L := Mini.libs) settings
                (mkUpload (Some "test.jpg") (Some "image/jpeg")
                   Mini.text_bytes)) Mini.loaded) = 500).
Proof.
  apply (undecodable_is_unexpected_failure (L := Mini.libs) settings
           Mini.text_bytes "test.jpg" (Some "image/jpeg") Mini.loaded);
    [discriminate | reflexivity | reflexivity].
Defined.

Example spoofed_text_status :
  response_status
    (run (predict_image (L := Mini.libs) settings
            (mkUpload (Some "test.jpg") (Some "image/jpeg") Mini.text_bytes))
         Mini.loaded) = 500.
Proof. reflexivity. Qed.

Example plain_text_status :
  response_status
    (run (predict_image (L := Mini.libs) settings
            (mkUpload (Some "test.txt") (Some "text/plain") Mini.text_bytes))
         Mini.loaded) = 400.
Proof. reflexivity. Qed.

Example valid_upload_status :
  response_status
    (run (predict_image (L := Mini.libs) settings
            (mkUpload (Some "scan.png") (Some "image/png") Mini.gray_upload))
         Mini.loaded) = 200.
Proof. reflexivity. Qed.

(** C6: an empty payload that comes with a file name and a content type
    reaches the empty-file guard of the route, which runs before
    [process_image] and so before [validate_image]; the guard raises
    [HTTPException(400)] inside the [try] block, the clause
    [except Exception] takes it, logs it under its text
    "400: Empty file provided", and the route answers 500 (the
    UnexpectedFailure kind), where the specification and the repository's test of the
    empty file expect 400. Called directly on an empty payload with a valid
    declared type, [process_image] fails in the decoder with the
    UnexpectedFailure kind as well. *)
Theorem empty_payload_is_unexpected_failure {L : Libs} (cfg : Settings)
    (fname : string) (content_type : option string) (w : World) :
  fname <> "" ->
  py_not_str content_type = false ->
  response_status
    (run (predict_image cfg (mkUpload (Some fname) content_type [])) w) = 500
  /\ kind_of_status 500 = Some UnexpectedFailure
  /\ events (after (predict_image cfg (mkUpload (Some fname) content_type []))
                   w)
     = LogError ("Unexpected error processing " ++ fname
                 ++ ": 400: Empty file provided")
       :: LogInfo ("Processing image: " ++ fname ++ " ("
                   ++ str_of content_type ++ ")")
       :: events w
  /\ (validate_image cfg content_type 0 = true ->
      pil_identify [] = None ->
      exists e : exn,
        run (process_image cfg [] fname content_type) w = Raise e
        /\ error_kind e = UnexpectedFailure).
Proof.
  intros Hf Hc.
  assert (E : predict_image cfg (mkUpload (Some fname) content_type []) w
              = (Raise (HTTPException 500
                          "Internal server error during image processing"),
                 mkWorld (self w)
                   (LogError ("Unexpected error processing " ++ fname
                              ++ ": 400: Empty file provided")
                    :: LogInfo ("Processing image: " ++ fname ++ " ("
                                ++ str_of content_type ++ ")")
                    :: events w)
                   (ticks w))).
  { unfold predict_image. simpl.
    destruct fname as [| a fname']; [congruence|]. simpl.
    rewrite Hc. reflexivity. }
  unfold run, after. rewrite E. simpl.
  split; [reflexivity|]. split; [reflexivity|]. split; [reflexivity|].
  intros Hv Hd.
  exists (PyExc UnidentifiedImageError "cannot identify image file").
  rewrite (process_image_undecodable cfg [] fname content_type w Hv Hd).
  split; reflexivity.
Qed.

Lemma empty_payload_is_unexpected_failure_witness :
  response_status
    (run (predict_image (L := Mini.libs) settings
            (mkUpload (Some "empty.jpg") (Some "image/jpeg") []))
         Mini.loaded) = 500.
Proof.
  apply (empty_payload_is_unexpected_failure (L := Mini.libs) settings
           "empty.jpg" (Some "image/jpeg") Mini.loaded);
    [discriminate | reflexivity].
Defined.

Example empty_without_type_status :
  response_status
    (run (predict_image (L := Mini.libs) settings
            (mkUpload (Some "empty.jpg") None []))
         Mini.loaded) = 400.
Proof. reflexivity. Qed.

(** * Further properties *)

(** ** Parsing of the configuration strings *)

Lemma lstrip_head (s : string) : starts_space (PyStr.lstrip s) = false.
Proof.
  induction s as [| c s IH]; simpl; [reflexivity|].
  destruct (PyStr.is_space c) eqn:E; [exact IH | simpl; exact E].
Qed.

Lemma rstrip_head (s : string) :
  starts_space s = false -> starts_space (PyStr.rstrip s) = false.
Proof.
  destruct s as [| c s]; simpl; [reflexivity|].
  intros H. destruct (PyStr.rstrip s); simpl; [rewrite H|]; auto.
Qed.

Lemma rstrip_tail (s : string) : ends_space (PyStr.rstrip s) = false.
Proof.
  induction s as [| c s IH]; simpl; [reflexivity|].
  destruct (PyStr.rstrip s) as [| d r] eqn:E.
  - destruct (PyStr.is_space c) eqn:F; simpl; auto.
  - exact IH.
Qed.

Lemma strip_trimmed (s : string) :
  starts_space (PyStr.strip s) = false /\ ends_space (PyStr.strip s) = false.
Proof.
  unfold PyStr.strip. split.
  - apply rstrip_head, lstrip_head.
  - apply rstrip_tail.
Qed.

Lemma forallb_lstrip (f : ascii -> bool) (s : string) :
  forallb_str f s = true -> forallb_str f (PyStr.lstrip s) = true.
Proof.
  induction s as [| c s IH]; simpl; [auto|].
  intros H. apply andb_true_iff in H. destruct H as [Hc Hs].
  destruct (PyStr.is_space c); [auto | simpl; now rewrite Hc, Hs].
Qed.

Lemma forallb_rstrip (f : ascii -> bool) (s : string) :
  forallb_str f s = true -> forallb_str f (PyStr.rstrip s) = true.
Proof.
  induction s as [| c s IH]; simpl; [auto|].
  intros H. apply andb_true_iff in H. destruct H as [Hc Hs].
  specialize (IH Hs).
  destruct (PyStr.rstrip s) as [| d r].
  - destruct (PyStr.is_space c); simpl; [reflexivity | now rewrite Hc].
  - simpl. rewrite Hc. exact IH.
Qed.

Lemma forallb_strip (f : ascii -> bool) (s : string) :
  forallb_str f s = true -> forallb_str f (PyStr.strip s) = true.
Proof.
  intros H. unfold PyStr.strip. now apply forallb_rstrip, forallb_lstrip.
Qed.

Lemma lstrip_blank (s : string) :
  forallb_str PyStr.is_space s = true -> PyStr.lstrip s = "".
Proof.
  induction s as [| c s IH]; simpl; [reflexivity|].
  intros H. apply andb_true_iff in H. destruct H as [Hc Hs].
  rewrite Hc. auto.
Qed.

(** The parts of a split hold no separator, and keep what holds of every
    character that is not the separator. *)
Lemma split_parts (f : ascii -> bool) (sep : ascii) (s : string) :
  forallb_str (fun c => Ascii.eqb c sep || f c) s = true ->
  Forall (fun p => forallb_str (fun c => negb (Ascii.eqb c sep) && f c) p = true)
         (PyStr.split sep s).
Proof.
  induction s as [| c s IH]; simpl.
  - intros _. repeat constructor.
  - intros H. apply andb_true_iff in H. destruct H as [Hc Hs].
    specialize (IH Hs).
    destruct (Ascii.eqb c sep) eqn:E.
    + constructor; [reflexivity | exact IH].
    + destruct (PyStr.split sep s) as [| w ws].
      * repeat constructor. simpl. rewrite E. simpl in *. now rewrite Hc.
      * inversion IH as [| ? ? Hw Hws]; subst.
        constructor; [|exact Hws]. simpl. rewrite E, Hw. simpl in *.
        now rewrite Hc.
Qed.

Lemma forallb_str_impl (f g : ascii -> bool) (s : string) :
  (forall c, f c = true -> g c = true) ->
  forallb_str f s = true -> forallb_str g s = true.
Proof.
  intros Hfg. induction s as [| c s IH]; simpl; [auto|].
  intros H. apply andb_true_iff in H. destruct H as [Hc Hs].
  now rewrite (Hfg c Hc), IH.
Qed.

Lemma forallb_str_true (s : string) : forallb_str (fun _ => true) s = true.
Proof. induction s; simpl; auto. Qed.

Lemma split_length (sep : ascii) (s : string) :
  length (PyStr.split sep s) = S (count_char sep s).
Proof.
  induction s as [| c s IH]; simpl; [reflexivity|].
  destruct (Ascii.eqb c sep).
  - simpl. now rewrite IH.
  - destruct (PyStr.split sep s); simpl in *; [discriminate | exact IH].
Qed.

(** Every entry of the parsed allow-list is trimmed and free of commas. *)
Lemma allowed_entry_shape (cfg : Settings) (x : string) :
  In x (get_allowed_image_types cfg) ->
  starts_space x = false /\ ends_space x = false
  /\ forallb_str not_comma x = true.
Proof.
  unfold get_allowed_image_types. intros H.
  apply in_map_iff in H. destruct H as [p [<- Hp]].
  destruct (strip_trimmed p) as [H1 H2]. repeat split; try assumption.
  apply forallb_strip.
  pose proof (split_parts (fun _ => true) ","%char (ALLOWED_IMAGE_TYPES cfg))
    as S.
  rewrite Forall_forall in S.
  assert (A : forallb_str (fun c => Ascii.eqb c ","%char || true)
                (ALLOWED_IMAGE_TYPES cfg) = true).
  { apply forallb_str_impl with (f := fun _ => true);
      [intros c _; apply orb_true_r | apply forallb_str_true]. }
  specialize (S A p Hp).
  revert S. apply forallb_str_impl. intros c Hc.
  apply andb_true_iff in Hc. exact (proj1 Hc).
Qed.

Lemma validate_true_in (cfg : Settings) (c : string) (n : Z) :
  validate_image cfg (Some c) n = true ->
  In c (get_allowed_image_types cfg).
Proof.
  unfold validate_image. intros H.
  destruct (py_not_str (Some c)
            || negb (str_in (Some c) (get_allowed_image_types cfg))) eqn:T;
    [discriminate|].
  apply type_check_true in T. destruct T as [x [E [_ Hin]]].
  now injection E as <-.
Qed.

(** X1: a declared content type that starts or ends with whitespace is
    rejected under every configuration: the allow-list entries are stripped,
    the declared type is compared as it is. *)
Theorem padded_content_type_rejected (cfg : Settings) (c : string) (n : Z) :
  starts_space c = true \/ ends_space c = true ->
  validate_image cfg (Some c) n = false.
Proof.
  intros H. destruct (validate_image cfg (Some c) n) eqn:V; [|reflexivity].
  apply validate_true_in, allowed_entry_shape in V.
  destruct V as [V1 [V2 _]]. destruct H; congruence.
Qed.

Lemma padded_content_type_rejected_witness :
  validate_image settings (Some "image/png ") 10 = false.
Proof.
  apply (padded_content_type_rejected settings "image/png " 10).
  right. reflexivity.
Defined.

(** X2: a declared content type that contains a comma is rejected under
    every configuration, since the allow-list is split on commas. *)
Theorem comma_content_type_rejected (cfg : Settings) (c : string) (n : Z) :
  forallb_str not_comma c = false ->
  validate_image cfg (Some c) n = false.
Proof.
  intros H. destruct (validate_image cfg (Some c) n) eqn:V; [|reflexivity].
  apply validate_true_in, allowed_entry_shape in V.
  destruct V as [_ [_ V]]. congruence.
Qed.

Lemma comma_content_type_rejected_witness :
  validate_image settings (Some "image/jpeg,image/png") 10 = false.
Proof.
  apply (comma_content_type_rejected settings "image/jpeg,image/png" 10).
  reflexivity.
Defined.

(** X3: when [ALLOWED_IMAGE_TYPES] holds nothing but whitespace and commas
    (the empty string included), every entry of the parsed list is the empty
    string and [validate_image] rejects every upload. *)
Theorem blank_allow_list_rejects_all (cfg : Settings)
    (c : option string) (n : Z) :
  forallb_str (fun ch => Ascii.eqb ch ","%char || PyStr.is_space ch)
    (ALLOWED_IMAGE_TYPES cfg) = true ->
  Forall (fun x => x = "") (get_allowed_image_types cfg)
  /\ validate_image cfg c n = false.
Proof.
  intros H.
  assert (A : Forall (fun x => x = "") (get_allowed_image_types cfg)).
  { unfold get_allowed_image_types. apply Forall_map.
    eapply Forall_impl; [| exact (split_parts _ _ _ H)].
    intros p Hp. unfold PyStr.strip. rewrite lstrip_blank; [reflexivity|].
    revert Hp. apply forallb_str_impl. intros ch Hc.
    apply andb_true_iff in Hc. exact (proj2 Hc). }
  split; [exact A|].
  destruct (validate_image cfg c n) eqn:V; [|reflexivity].
  destruct c as [x|].
  - pose proof (validate_true_declared _ _ _ V) as N.
    apply validate_true_in in V. rewrite Forall_forall in A.
    rewrite (A x V) in N. discriminate.
  - discriminate.
Qed.

Lemma blank_allow_list_rejects_all_witness :
  validate_image (mkSettings 100 " , ," "m.h5" "2,2" (1 # 2)%Q)
    (Some "image/png") 1 = false.
Proof.
  apply (blank_allow_list_rejects_all
           (mkSettings 100 " , ," "m.h5" "2,2" (1 # 2)%Q)
           (Some "image/png") 1).
  reflexivity.
Defined.

(** X4: [get_model_input_size] falls back to (224, 224) whenever
    [MODEL_INPUT_SIZE] does not hold exactly one comma. *)
Theorem input_size_fallback_on_commas (cfg : Settings) :
  count_char ","%char (MODEL_INPUT_SIZE cfg) <> 1%nat ->
  get_model_input_size cfg = (224, 224).
Proof.
  intros H. unfold get_model_input_size.
  pose proof (split_length ","%char (MODEL_INPUT_SIZE cfg)) as E.
  destruct (PyStr.split ","%char (MODEL_INPUT_SIZE cfg)) as [| a [| b [| c r]]];
    simpl in E; try reflexivity.
  exfalso. apply H. lia.
Qed.

Lemma input_size_fallback_on_commas_witness :
  get_model_input_size (mkSettings 10 "image/png" "m.h5" "64,64,3" (1 # 2)%Q)
  = (224, 224).
Proof.
  apply (input_size_fallback_on_commas
           (mkSettings 10 "image/png" "m.h5" "64,64,3" (1 # 2)%Q)).
  simpl. lia.
Defined.

(** ** The maximum scan on rows of any length *)

Lemma max_scan_first_max (l : list Q) :
  forall (pre : list Q) (k : nat),
    first_max pre k ->
    exists k' : nat,
      max_scan (Z.of_nat k) (nth k pre 0%Q) (Z.of_nat (length pre)) l
      = (Z.of_nat k', nth k' (pre ++ l) 0%Q)
      /\ first_max (pre ++ l) k'.
Proof.
  induction l as [| x t IH]; intros pre k Hk.
  - exists k. rewrite app_nil_r. split; [reflexivity | exact Hk].
  - destruct Hk as [Hlt [Hmax Hfirst]]. simpl.
    assert (Hlen : Z.of_nat (length pre) + 1
                   = Z.of_nat (length (pre ++ [x])%list)).
    { rewrite length_app. simpl. lia. }
    assert (Happ : (pre ++ x :: t = (pre ++ [x]) ++ t)%list).
    { now rewrite <- app_assoc. }
    destruct (Qlt_bool (nth k pre 0%Q) x) eqn:C.
    + apply Qlt_bool_true in C.
      assert (F : first_max (pre ++ [x])%list (length pre)).
      { unfold first_max. rewrite length_app. simpl. split; [lia|].
        rewrite (app_nth2 pre [x]) by lia. rewrite Nat.sub_diag. simpl.
        split.
        - intros j Hj. destruct (Nat.lt_ge_cases j (length pre)) as [A | A].
          + rewrite app_nth1 by exact A. specialize (Hmax j A). lra.
          + assert (j = length pre) by lia. subst j.
            rewrite app_nth2 by lia. rewrite Nat.sub_diag. simpl. lra.
        - intros j Hj. rewrite app_nth1 by exact Hj.
          specialize (Hmax j Hj). lra. }
      destruct (IH (pre ++ [x])%list (length pre) F) as [k' [E F']].
      rewrite (app_nth2 pre [x]) in E by lia.
      rewrite Nat.sub_diag in E. simpl in E.
      exists k'. rewrite Hlen, Happ. split; assumption.
    + apply Qlt_bool_false in C.
      assert (F : first_max (pre ++ [x])%list k).
      { unfold first_max. rewrite length_app. simpl. split; [lia|].
        rewrite (app_nth1 pre [x]) by exact Hlt. split.
        - intros j Hj. destruct (Nat.lt_ge_cases j (length pre)) as [A | A].
          + rewrite app_nth1 by exact A. exact (Hmax j A).
          + assert (j = length pre) by lia. subst j.
            rewrite app_nth2 by lia. rewrite Nat.sub_diag. simpl. exact C.
        - intros j Hj. rewrite app_nth1 by lia. exact (Hfirst j Hj). }
      destruct (IH (pre ++ [x])%list k F) as [k' [E F']].
      rewrite (app_nth1 pre [x]) in E by exact Hlt.
      exists k'. rewrite Hlen, Happ. split; assumption.
Qed.

(** [np.argmax] and [np.max] on a non-empty row: the first position of the
    maximum, and the value found there. *)
Lemma argmax_first_max (x : Q) (t : list Q) :
  exists k : nat,
    np_argmax (x :: t) = Ok (Z.of_nat k)
    /\ np_max (x :: t) = Ok (nth k (x :: t) 0%Q)
    /\ first_max (x :: t) k.
Proof.
  assert (F : first_max [x] 0).
  { unfold first_max. simpl. split; [lia|]. split.
    - intros j Hj. assert (j = 0%nat) by lia. subst j. simpl. lra.
    - intros j Hj. lia. }
  destruct (max_scan_first_max t [x] 0%nat F) as [k [E Fk]].
  simpl in E. exists k. unfold np_argmax, np_max. rewrite E.
  split; [reflexivity|]. split; [reflexivity | exact Fk].
Qed.

Lemma getitem_nat {A : Type} (l : list A) (k : nat) (d : A) :
  (k < length l)%nat -> getitem l (Z.of_nat k) = Ok (nth k l d).
Proof.
  intros H. unfold getitem.
  assert (E1 : (Z.of_nat k <? 0) = false) by (apply Z.ltb_ge; lia).
  rewrite E1.
  assert (E2 : (Z.of_nat (length l) <=? Z.of_nat k) = false)
    by (apply Z.leb_gt; lia).
  rewrite E1, E2. simpl. rewrite Nat2Z.id.
  destruct (nth_error l k) as [a |] eqn:N.
  - now rewrite (nth_error_nth l k d N).
  - apply nth_error_None in N. lia.
Qed.

Lemma getitem_out {A : Type} (l : list A) (k : nat) :
  (length l <= k)%nat ->
  getitem l (Z.of_nat k) = Raise (PyExc IndexError "index out of range").
Proof.
  intros H. unfold getitem.
  assert (E1 : (Z.of_nat k <? 0) = false) by (apply Z.ltb_ge; lia).
  rewrite E1.
  assert (E2 : (Z.of_nat (length l) <=? Z.of_nat k) = true)
    by (apply Z.leb_le; lia).
  now rewrite E1, E2.
Qed.

Lemma getitem_In {A : Type} (l : list A) (i : Z) (a : A) :
  getitem l i = Ok a -> In a l.
Proof.
  unfold getitem.
  destruct ((_ <? 0) || (_ <=? _)); [discriminate|].
  destruct (nth_error l _) eqn:N; [|discriminate].
  intros E. injection E as <-. exact (nth_error_In _ _ N).
Qed.

(** ** Prediction in general *)

Section PredictionGeneral.

Context {L : Libs}.

(** [predict] on a loaded processor that holds a model: one forward pass,
    then the reading of the output; a failure is logged and raised again,
    and the clock is read a second time only on success. *)
Lemma predict_run (w : World) (x : ndarray) (m : Model) :
  model_loaded (self w) = true ->
  model (self w) = Some m ->
  predict x w
  = match rbind (forward m x) read_output with
    | Ok (lbl, conf, (p0, p1, p2)) =>
        (Ok (mkPredictionResult lbl conf
               [("Benign Case", p0); ("Malignant Case", p1);
                ("Normal Case", p2)]
               ((clock (S (ticks w)) - clock (ticks w)) * 1000)%Q),
         mkWorld (self w) (ModelPredict x :: events w) (S (S (ticks w))))
    | Raise e =>
        (Raise e,
         mkWorld (self w)
           (logged "Prediction failed: " e (ModelPredict x :: events w))
           (S (ticks w)))
    end.
Proof.
  intros Hl Hm.
  unfold predict, try_except, bind, time_time, get_self, model_predict,
    emit, lift, ret, raise. simpl.
  rewrite Hl. simpl. unfold bind, get_self. simpl.
  rewrite Hm. unfold bind. simpl.
  unfold logged, logger_error, emit, raise, bind.
  destruct (forward m x) as [preds | e]; simpl.
  2: { destruct (isinstance e Exception_); reflexivity. }
  unfold read_output, class_labels.
  destruct (getitem preds 0) as [ps | e]; simpl.
  2: { destruct (isinstance e Exception_); reflexivity. }
  destruct (np_argmax ps) as [i | e]; simpl.
  2: { destruct (isinstance e Exception_); reflexivity. }
  destruct (np_max ps) as [c | e]; simpl.
  2: { destruct (isinstance e Exception_); reflexivity. }
  destruct (getitem _ i) as [lbl | e]; simpl.
  2: { destruct (isinstance e Exception_); reflexivity. }
  destruct (getitem ps 0) as [p0 | e]; simpl.
  2: { destruct (isinstance e Exception_); reflexivity. }
  destruct (getitem ps 1) as [p1 | e]; simpl.
  2: { destruct (isinstance e Exception_); reflexivity. }
  destruct (getitem ps 2) as [p2 | e]; simpl.
  2: { destruct (isinstance e Exception_); reflexivity. }
  reflexivity.
Qed.

(** [predict] on a processor that claims a loaded model but holds none. *)
Lemma predict_no_handle (w : World) (x : ndarray) :
  model_loaded (self w) = true ->
  model (self w) = None ->
  exists w', predict x w
             = (Raise (PyExc AttributeError
                         "'NoneType' object has no attribute 'predict'"), w').
Proof.
  intros Hl Hm. eexists.
  unfold predict, try_except, bind, time_time, get_self, model_predict,
    emit, lift, ret, raise. simpl.
  rewrite Hl. simpl. unfold bind, get_self. simpl.
  rewrite Hm. reflexivity.
Qed.

End PredictionGeneral.

Section PredictionOutcomes.

Context {L : Libs}.

(** X5: when the model answers a row of three or more values, [predict]
    looks for the first maximum over the whole row: if it sits among the
    first three values the label and confidence are those of that position
    and the values after the third are dropped from the probabilities; if it
    sits further right, [predict] raises [IndexError]. *)
Theorem predict_long_row (w : World) (x : ndarray) (m : Model)
    (ps : list Q) (rest : list (list Q)) :
  model_loaded (self w) = true ->
  model (self w) = Some m ->
  forward m x = Ok (ps :: rest) ->
  (3 <= length ps)%nat ->
  exists k : nat,
    first_max ps k
    /\ ((k < 3)%nat ->
        exists r : PredictionResult,
          run (predict x) w = Ok r
          /\ prediction r
             = nth k ["Benign Case"; "Malignant Case"; "Normal Case"] ""
          /\ confidence r = nth k ps 0%Q
          /\ probabilities r
             = [("Benign Case", nth 0 ps 0%Q); ("Malignant Case", nth 1 ps 0%Q);
                ("Normal Case", nth 2 ps 0%Q)])
    /\ ((3 <= k)%nat ->
        exists e : exn,
          run (predict x) w = Raise e /\ exn_cls e = IndexError).
Proof.
  intros Hl Hm Hf Hlen.
  destruct ps as [| x0 t]; [simpl in Hlen; lia|].
  destruct (argmax_first_max x0 t) as [k [Ha [Hx Hk]]].
  exists k. split; [exact Hk|].
  assert (G0 : getitem (x0 :: t) 0 = Ok (nth 0 (x0 :: t) 0%Q))
    by (apply (getitem_nat (x0 :: t) 0 0%Q); lia).
  assert (G1 : getitem (x0 :: t) 1 = Ok (nth 1 (x0 :: t) 0%Q))
    by (apply (getitem_nat (x0 :: t) 1 0%Q); lia).
  assert (G2 : getitem (x0 :: t) 2 = Ok (nth 2 (x0 :: t) 0%Q))
    by (apply (getitem_nat (x0 :: t) 2 0%Q); lia).
  assert (R : rbind (forward m x) read_output
              = rbind (getitem ["Benign Case"; "Malignant Case"; "Normal Case"]
                         (Z.of_nat k))
                  (fun lbl => Ok (lbl, nth k (x0 :: t) 0%Q,
                                  (nth 0 (x0 :: t) 0%Q, nth 1 (x0 :: t) 0%Q,
                                   nth 2 (x0 :: t) 0%Q)))).
  { rewrite Hf. unfold read_output. cbn [rbind].
    change (getitem ((x0 :: t) :: rest) 0) with (Ok (A := list Q) (x0 :: t)).
    cbn [rbind]. rewrite Ha. cbn [rbind]. rewrite Hx. cbn [rbind].
    destruct (getitem _ (Z.of_nat k)); cbn [rbind]; [|reflexivity].
    rewrite G0. cbn [rbind]. rewrite G1. cbn [rbind]. rewrite G2.
    reflexivity. }
  split.
  - intros Hlt. eexists. unfold run.
    rewrite (predict_run w x m Hl Hm), R.
    rewrite (getitem_nat _ k "") by (simpl; lia). cbn [rbind fst].
    repeat split; reflexivity.
  - intros Hge. eexists. unfold run.
    rewrite (predict_run w x m Hl Hm), R.
    rewrite getitem_out by (simpl; lia). cbn [rbind fst].
    split; reflexivity.
Qed.

(** X6: a model output that is too short makes [predict] raise after the
    forward pass: an empty batch gives [IndexError], an empty first row makes
    [np.argmax] raise [ValueError] (the kind the route answers with 400), and
    a first row of one or two values gives [IndexError]; each failure is
    logged once by [predict]. *)
Theorem predict_short_output (w : World) (x : ndarray) (m : Model) :
  model_loaded (self w) = true ->
  model (self w) = Some m ->
  (forward m x = Ok [] ->
   exists e, predict x w
             = (Raise e,
                mkWorld (self w)
                  (LogError ("Prediction failed: " ++ exn_str e)
                     :: ModelPredict x :: events w) (S (ticks w)))
             /\ exn_cls e = IndexError
             /\ error_kind e = UnexpectedFailure)
  /\ (forall rest, forward m x = Ok ([] :: rest) ->
      exists e, predict x w
                = (Raise e,
                   mkWorld (self w)
                     (LogError ("Prediction failed: " ++ exn_str e)
                        :: ModelPredict x :: events w) (S (ticks w)))
                /\ exn_cls e = ValueError
                /\ error_kind e = InvalidInput)
  /\ (forall ps rest,
      forward m x = Ok (ps :: rest) ->
      (0 < length ps < 3)%nat ->
      exists e, predict x w
                = (Raise e,
                   mkWorld (self w)
                     (LogError ("Prediction failed: " ++ exn_str e)
                        :: ModelPredict x :: events w) (S (ticks w)))
                /\ exn_cls e = IndexError
                /\ error_kind e = UnexpectedFailure).
Proof.
  intros Hl Hm. rewrite (predict_run w x m Hl Hm). repeat split.
  - intros Hf. rewrite Hf. eexists. split; [reflexivity|].
    split; reflexivity.
  - intros rest Hf. rewrite Hf. eexists. split; [reflexivity|].
    split; reflexivity.
  - intros ps rest Hf Hlen. rewrite Hf.
    destruct ps as [| a [| b [| c t]]]; simpl in Hlen; try lia.
    + eexists. split; [reflexivity|]. split; reflexivity.
    + unfold read_output. cbn [rbind].
      change (getitem ([a; b] :: rest) 0) with (Ok (A := list Q) [a; b]).
      cbn [rbind].
      destruct (argmax_first_max a [b]) as [k [Ha [Hx [Hk _]]]].
      rewrite Ha, Hx. cbn [rbind].
      rewrite (getitem_nat _ k "") by (simpl in *; lia). cbn [rbind].
      eexists. split; [reflexivity|]. split; reflexivity.
Qed.

End PredictionOutcomes.

Lemma predict_long_row_witness :
  exists k : nat,
    first_max [(1 # 10)%Q; (2 # 10)%Q; (3 # 10)%Q; (4 # 10)%Q] k
    /\ ((3 <= k)%nat ->
        exists e : exn,
          run (predict (L := Mini.libs) (mkArr [1] [1%Q]))
              (mkWorld
                 (mkProcessor
                    (Some (mkModel (fun _ =>
                       Ok [[(1 # 10)%Q; (2 # 10)%Q; (3 # 10)%Q; (4 # 10)%Q]])))
                    true) [] 0)
          = Raise e /\ exn_cls e = IndexError).
Proof.
  destruct (predict_long_row (L := Mini.libs)
              (mkWorld
                 (mkProcessor
                    (Some (mkModel (fun _ =>
                       Ok [[(1 # 10)%Q; (2 # 10)%Q; (3 # 10)%Q; (4 # 10)%Q]])))
                    true) [] 0)
              (mkArr [1] [1%Q])
              (mkModel (fun _ =>
                 Ok [[(1 # 10)%Q; (2 # 10)%Q; (3 # 10)%Q; (4 # 10)%Q]]))
              [(1 # 10)%Q; (2 # 10)%Q; (3 # 10)%Q; (4 # 10)%Q] []
              eq_refl eq_refl eq_refl (le_S _ _ (le_n 3)))
    as [k [Hk [_ Hout]]].
  exists k. split; [exact Hk | exact Hout].
Defined.

Lemma predict_short_output_witness :
  exists e,
    predict (L := Mini.libs) (mkArr [1] [1%Q])
      (mkWorld (mkProcessor (Some (mkModel (fun _ => Ok [[]]))) true) [] 0)
    = (Raise e,
       mkWorld (mkProcessor (Some (mkModel (fun _ => Ok [[]]))) true)
         [LogError ("Prediction failed: " ++ exn_str e);
          ModelPredict (mkArr [1] [1%Q])] 1%nat)
    /\ exn_cls e = ValueError
    /\ error_kind e = InvalidInput.
Proof.
  apply (proj1 (proj2
           (predict_short_output (L := Mini.libs)
              (mkWorld (mkProcessor (Some (mkModel (fun _ => Ok [[]]))) true)
                 [] 0)
              (mkArr [1] [1%Q]) (mkModel (fun _ => Ok [[]]))
              eq_refl eq_refl)) [] eq_refl).
Defined.

(** ** Failures inside the pipeline *)

Section PipelineFailures.

Context {L : Libs}.

(** A failure of [predict] goes through [process_image] unchanged, with
    one more log record. *)
Lemma process_image_predict_raises (cfg : Settings) (image_data : list byte)
    (fname : string) (content_type : option string) (im : PILImage)
    (t : ndarray) (w w1 : World) (e : exn) :
  validate_image cfg content_type (Z.of_nat (length image_data)) = true ->
  pil_identify image_data = Some im ->
  pil_load im = None ->
  preprocess_image cfg im = Ok t ->
  predict t w = (Raise e, w1) ->
  process_image cfg image_data fname content_type w
  = (Raise e,
     mkWorld (self w1) (logged "Image processing failed: " e (events w1))
       (ticks w1)).
Proof.
  intros Hv Hd Hload Hp Hr.
  rewrite (process_image_decoded cfg image_data fname content_type im t w
             Hv Hd Hload Hp).
  unfold try_except, bind at 1. rewrite Hr. simpl.
  unfold logged, logger_error, emit, bind, raise.
  destruct (isinstance e Exception_); [reflexivity|].
  now destruct w1.
Qed.

(** X7: an exception raised by the model's forward pass on a valid upload
    (validated, identified, pixels loading, preprocessing returning) leaves
    [process_image] as it is, after one forward pass and one log record in
    [predict] and one in [process_image]; the route then answers by the class
    of that exception, so a [ValueError] from the model is answered with 400
    and a [RuntimeError] with 503. *)
Theorem forward_failure_propagates (cfg : Settings) (image_data : list byte)
    (fname : string) (content_type : option string) (im : PILImage)
    (t : ndarray) (w : World) (m : Model) (e : exn) :
  validate_image cfg content_type (Z.of_nat (length image_data)) = true ->
  pil_identify image_data = Some im ->
  pil_load im = None ->
  preprocess_image cfg im = Ok t ->
  model_loaded (self w) = true ->
  model (self w) = Some m ->
  forward m t = Raise e ->
  process_image cfg image_data fname content_type w
  = (Raise e,
     mkWorld (self w)
       (logged "Image processing failed: " e
          (logged "Prediction failed: " e (ModelPredict t :: events w)))
       (S (ticks w)))
  /\ (fname <> "" -> image_data <> [] ->
      response_status
        (run (predict_image cfg
                (mkUpload (Some fname) content_type image_data)) w)
      = status_of_kind (error_kind e)).
Proof.
  intros Hv Hd Hload Hp Hl Hm Hf.
  assert (P : forall w', self w' = self w ->
              predict t w'
              = (Raise e,
                 mkWorld (self w')
                   (logged "Prediction failed: " e (ModelPredict t :: events w'))
                   (S (ticks w')))).
  { intros w' Hs.
    rewrite (predict_run w' t m) by (rewrite Hs; assumption).
    now rewrite Hf. }
  split.
  - now rewrite (process_image_predict_raises cfg image_data fname content_type
                   im t w _ e Hv Hd Hload Hp (P w eq_refl)).
  - intros Hn Hne.
    apply (route_maps_kind cfg fname content_type image_data w e Hn
             (validate_true_declared _ _ _ Hv) Hne).
    unfold run.
    now rewrite (process_image_predict_raises cfg image_data fname content_type
                   im t (route_world fname content_type w) _ e Hv Hd Hload Hp
                   (P (route_world fname content_type w) eq_refl)).
Qed.

(** X8: when the model answers, on a valid upload whose pixels load, three
    values of which one exceeds 1, or which are all negative, [predict]
    succeeds but the construction of [PredictionResult] rejects the
    confidence: [process_image] raises pydantic's [ValidationError], a
    [ValueError], and the route answers 400. *)
Theorem confidence_out_of_range (cfg : Settings) (image_data : list byte)
    (fname : string) (content_type : option string) (im : PILImage)
    (t : ndarray) (w : World) (m : Model) (p0 p1 p2 : Q)
    (rest : list (list Q)) :
  validate_image cfg content_type (Z.of_nat (length image_data)) = true ->
  pil_identify image_data = Some im ->
  pil_load im = None ->
  preprocess_image cfg im = Ok t ->
  model_loaded (self w) = true ->
  model (self w) = Some m ->
  forward m t = Ok ([p0; p1; p2] :: rest) ->
  ((1 < p0)%Q \/ (1 < p1)%Q \/ (1 < p2)%Q)
  \/ ((p0 < 0)%Q /\ (p1 < 0)%Q /\ (p2 < 0)%Q) ->
  exists e : exn,
    run (process_image cfg image_data fname content_type) w = Raise e
    /\ exn_cls e = ValidationError
    /\ error_kind e = InvalidInput
    /\ (fname <> "" -> image_data <> [] ->
        response_status
          (run (predict_image cfg
                  (mkUpload (Some fname) content_type image_data)) w) = 400).
Proof.
  intros Hv Hd Hload Hp Hl Hm Hf Hout.
  set (e := PyExc ValidationError "1 validation error for PredictionResult").
  assert (P : forall w', self w' = self w ->
              exists w1,
                process_image cfg image_data fname content_type w'
                = (Raise e, w1)).
  { intros w' Hs.
    assert (Hl' : model_loaded (self w') = true) by (rewrite Hs; exact Hl).
    assert (Hm' : model (self w') = Some m) by (rewrite Hs; exact Hm).
    destruct (predict_loaded w' t m p0 p1 p2 rest Hl' Hm' Hf)
      as [i [[Hlt [Hmax _]] Hrun]].
    simpl in Hlt.
    assert (B : Qle_bool 0 (nth i [p0; p1; p2] 0%Q)
                && Qle_bool (nth i [p0; p1; p2] 0%Q) 1 = false).
    { apply andb_false_iff.
      destruct Hout as [Hbig | [N0 [N1 N2]]].
      - right. apply not_true_is_false. intros K. apply Qle_bool_iff in K.
        pose proof (Hmax 0%nat ltac:(simpl; lia)) as M0.
        pose proof (Hmax 1%nat ltac:(simpl; lia)) as M1.
        pose proof (Hmax 2%nat ltac:(simpl; lia)) as M2.
        change (nth 0 [p0; p1; p2] 0%Q) with p0 in M0.
        change (nth 1 [p0; p1; p2] 0%Q) with p1 in M1.
        change (nth 2 [p0; p1; p2] 0%Q) with p2 in M2.
        destruct Hbig as [H | [H | H]]; lra.
      - left. apply not_true_is_false. intros K. apply Qle_bool_iff in K.
        destruct i as [|[|[|i]]]; simpl in K; try lia; lra. }
    rewrite (process_image_decoded cfg image_data fname content_type im t w'
               Hv Hd Hload Hp).
    unfold try_except, bind at 1. rewrite Hrun.
    unfold bind at 1, lift at 1, PredictionResult_validate.
    cbn [confidence]. rewrite B. eexists. reflexivity. }
  exists e. destruct (P w eq_refl) as [w1 E].
  split; [unfold run; now rewrite E|].
  split; [reflexivity|]. split; [reflexivity|].
  intros Hn Hne.
  destruct (P (route_world fname content_type w) eq_refl) as [w2 E2].
  rewrite (route_maps_kind cfg fname content_type image_data w e Hn
             (validate_true_declared _ _ _ Hv) Hne).
  - reflexivity.
  - unfold run. now rewrite E2.
Qed.

(** X9: when the configured target size has a width or a height that is
    not positive, every upload that validates, is identified and whose
    pixels load fails in the resize step with [ValueError], whatever the
    state of the model and without a forward pass, and the route answers
    400. *)
Theorem nonpositive_target_rejects (ok : LibsOk L) (cfg : Settings)
    (image_data : list byte) (fname : string) (content_type : option string)
    (im : PILImage) (w : World) :
  validate_image cfg content_type (Z.of_nat (length image_data)) = true ->
  pil_identify image_data = Some im ->
  pil_load im = None ->
  fst (get_model_input_size cfg) <= 0 \/ snd (get_model_input_size cfg) <= 0 ->
  process_image cfg image_data fname content_type w
  = (Raise (PyExc ValueError "height and width must be > 0"),
     mkWorld (self w)
       (LogError "Image processing failed: height and width must be > 0"
          :: events w)
       (ticks w))
  /\ (fname <> "" -> image_data <> [] ->
      response_status
        (run (predict_image cfg
                (mkUpload (Some fname) content_type image_data)) w) = 400).
Proof.
  intros Hv Hd Hload Hsz.
  pose proof (fun w' => process_image_bad_target ok cfg image_data fname
                          content_type im w' Hv Hd Hload Hsz) as P.
  split; [apply P|].
  intros Hn Hne.
  rewrite (route_maps_kind cfg fname content_type image_data w
             (PyExc ValueError "height and width must be > 0") Hn
             (validate_true_declared _ _ _ Hv) Hne).
  - reflexivity.
  - unfold run. now rewrite P.
Qed.

(** X18: an upload that validates and whose container is identified, but
    whose pixel data does not load, fails at [np.array(image)] with the
    exception of the loader, before preprocessing and without a forward
    pass, whatever the state of the model and the configured target size; the
    route answers by the class of that exception, 500 for the [OSError] of a
    truncated file. *)
Theorem unloadable_upload_fails (cfg : Settings) (image_data : list byte)
    (fname : string) (content_type : option string) (im : PILImage)
    (e : exn) (w : World) :
  validate_image cfg content_type (Z.of_nat (length image_data)) = true ->
  pil_identify image_data = Some im ->
  pil_load im = Some e ->
  process_image cfg image_data fname content_type w
  = (Raise e,
     mkWorld (self w) (logged "Image processing failed: " e (events w))
       (ticks w))
  /\ forward_passes
       (events (after (process_image cfg image_data fname content_type) w))
     = forward_passes (events w)
  /\ (fname <> "" -> image_data <> [] ->
      response_status
        (run (predict_image cfg
                (mkUpload (Some fname) content_type image_data)) w)
      = status_of_kind (error_kind e))
  /\ (exn_cls e = OSError -> status_of_kind (error_kind e) = 500).
Proof.
  intros Hv Hd Hload.
  pose proof (fun w' => process_image_load_raises cfg image_data fname
                          content_type im e w' Hv Hd Hload) as P.
  split; [apply P|]. split.
  - unfold after. rewrite P. simpl. unfold logged.
    now destruct (isinstance e Exception_).
  - split.
    + intros Hn Hne.
      apply (route_maps_kind cfg fname content_type image_data w e Hn
               (validate_true_declared _ _ _ Hv) Hne).
      unfold run. now rewrite P.
    + intros Hc. unfold error_kind, isinstance. now rewrite Hc.
Qed.

End PipelineFailures.

Lemma forward_failure_propagates_witness :
  response_status
    (run (predict_image (L := Mini.libs) settings
            (mkUpload (Some "scan.png") (Some "image/png") Mini.gray_upload))
         (mkWorld
            (mkProcessor
               (Some (mkModel (fun _ =>
                  Raise (PyExc ValueError "incompatible input shape"))))
               true) [] 0))
  = 400.
Proof.
  refine (proj2
    (forward_failure_propagates (L := Mini.libs) settings Mini.gray_upload
       "scan.png" (Some "image/png") (Mini.mkImg "L" 8 8 xff true)
       (spec_preprocess (L := Mini.libs) (224, 224)
          (Mini.mkImg "L" 8 8 xff true))
       (mkWorld
          (mkProcessor
             (Some (mkModel (fun _ =>
                Raise (PyExc ValueError "incompatible input shape"))))
             true) [] 0)
       (mkModel (fun _ => Raise (PyExc ValueError "incompatible input shape")))
       (PyExc ValueError "incompatible input shape")
       eq_refl eq_refl eq_refl _ eq_refl eq_refl eq_refl) _ _).
  - apply (preprocess_image_ok (L := Mini.libs) Mini_libs_ok);
      [reflexivity | reflexivity | lia | lia].
  - discriminate.
  - discriminate.
Defined.

Lemma confidence_out_of_range_witness :
  exists e : exn,
    run (process_image (L := Mini.libs) settings Mini.gray_upload "scan.png"
           (Some "image/png"))
        (mkWorld
           (mkProcessor
              (Some (mkModel (fun _ => Ok [[(5 # 2)%Q; (1 # 10)%Q; (3 # 10)%Q]])))
              true) [] 0)
    = Raise e
    /\ exn_cls e = ValidationError
    /\ error_kind e = InvalidInput.
Proof.
  destruct (confidence_out_of_range (L := Mini.libs) settings Mini.gray_upload
              "scan.png" (Some "image/png") (Mini.mkImg "L" 8 8 xff true)
              (spec_preprocess (L := Mini.libs) (224, 224)
                 (Mini.mkImg "L" 8 8 xff true))
              (mkWorld
                 (mkProcessor
                    (Some (mkModel (fun _ =>
                       Ok [[(5 # 2)%Q; (1 # 10)%Q; (3 # 10)%Q]])))
                    true) [] 0)
              (mkModel (fun _ => Ok [[(5 # 2)%Q; (1 # 10)%Q; (3 # 10)%Q]]))
              (5 # 2)%Q (1 # 10)%Q (3 # 10)%Q [])
    as [e [H1 [H2 [H3 _]]]];
    [reflexivity | reflexivity | reflexivity
    | apply (preprocess_image_ok (L := Mini.libs) Mini_libs_ok);
        [reflexivity | reflexivity | lia | lia]
    | reflexivity | reflexivity | reflexivity
    | left; left; reflexivity
    | exists e; repeat split; assumption].
Defined.

Lemma nonpositive_target_rejects_witness :
  response_status
    (run (predict_image (L := Mini.libs) Mini.zero_width
            (mkUpload (Some "scan.png") (Some "image/png") Mini.gray_upload))
         Mini.loaded) = 400.
Proof.
  refine (proj2
    (nonpositive_target_rejects (L := Mini.libs) Mini_libs_ok
       Mini.zero_width Mini.gray_upload "scan.png" (Some "image/png")
       (Mini.mkImg "L" 8 8 xff true) Mini.loaded eq_refl eq_refl eq_refl _)
    _ _).
  - left. simpl. lia.
  - discriminate.
  - discriminate.
Defined.

Lemma unloadable_upload_fails_witness :
  response_status
    (run (predict_image (L := Mini.libs) settings
            (mkUpload (Some "scan.png") (Some "image/png") Mini.cut_upload))
         Mini.loaded) = 500.
Proof.
  refine (proj1 (proj2 (proj2
    (unloadable_upload_fails (L := Mini.libs) settings Mini.cut_upload
       "scan.png" (Some "image/png") (Mini.mkImg "L" 8 8 x00 false)
       (PyExc OSError "image file is truncated") Mini.loaded
       eq_refl eq_refl eq_refl))) _ _).
  - discriminate.
  - discriminate.
Defined.

(** ** What a successful call guarantees *)

Lemma read_output_label (r : result (list (list Q))) (lbl : string) (c : Q)
    (ps : Q * Q * Q) :
  rbind r read_output = Ok (lbl, c, ps) ->
  In lbl ["Benign Case"; "Malignant Case"; "Normal Case"].
Proof.
  destruct r as [preds | e]; [|discriminate]. unfold read_output. cbn [rbind].
  destruct (getitem preds 0) as [row | e]; cbn [rbind]; [|discriminate].
  destruct (np_argmax row) as [i | e]; cbn [rbind]; [|discriminate].
  destruct (np_max row) as [v | e]; cbn [rbind]; [|discriminate].
  destruct (getitem _ i) as [l | e] eqn:G; cbn [rbind]; [|discriminate].
  destruct (getitem row 0) as [p0 | e]; cbn [rbind]; [|discriminate].
  destruct (getitem row 1) as [p1 | e]; cbn [rbind]; [|discriminate].
  destruct (getitem row 2) as [p2 | e]; cbn [rbind]; [|discriminate].
  intros E. injection E as <- _ _. exact (getitem_In _ _ _ G).
Qed.

Section Success.

Context {L : Libs}.

(** What a successful [predict] implies. *)
Lemma predict_ok_inv (w w' : World) (x : ndarray) (r : PredictionResult) :
  predict x w = (Ok r, w') ->
  model_loaded (self w) = true
  /\ In (prediction r) ["Benign Case"; "Malignant Case"; "Normal Case"]
  /\ map fst (probabilities r)
     = ["Benign Case"; "Malignant Case"; "Normal Case"]
  /\ w' = mkWorld (self w) (ModelPredict x :: events w) (S (S (ticks w))).
Proof.
  intros H.
  destruct (model_loaded (self w)) eqn:Hl.
  2: { rewrite (predict_unloaded w x Hl) in H. discriminate. }
  destruct (model (self w)) as [m |] eqn:Hm.
  2: { destruct (predict_no_handle w x Hl Hm) as [w1 E].
       rewrite E in H. discriminate. }
  rewrite (predict_run w x m Hl Hm) in H.
  destruct (rbind (forward m x) read_output)
    as [[[lbl c] [[p0 p1] p2]] | e] eqn:R; [|discriminate].
  injection H as <- <-. simpl.
  repeat split; try reflexivity.
  exact (read_output_label _ _ _ _ R).
Qed.

(** X10: whenever [process_image] returns, validation had accepted the
    upload, the bytes had been identified as an image whose info and
    statistics the response carries, and the model was loaded; the response
    echoes the file name with status "success", its label is one of the three
    class labels, its confidence lies in [0, 1], its probabilities are keyed
    by the three labels in order, and the call made exactly one forward pass
    and read the clock three times. *)
Theorem process_image_success (cfg : Settings) (image_data : list byte)
    (fname : string) (content_type : option string) (w : World)
    (resp : PredictionResponse) :
  run (process_image cfg image_data fname content_type) w = Ok resp ->
  validate_image cfg content_type (Z.of_nat (length image_data)) = true
  /\ (exists im : PILImage,
        pil_identify image_data = Some im
        /\ image_info resp
           = extract_image_info im (Some (Z.of_nat (length image_data)))
        /\ image_stats resp
           = calculate_image_stats (np_array im)
               (Some (Z.of_nat (length image_data))))
  /\ model_loaded (self w) = true
  /\ status resp = "success"
  /\ filename resp = fname
  /\ In (prediction (prediction_result resp))
        ["Benign Case"; "Malignant Case"; "Normal Case"]
  /\ (0 <= confidence (prediction_result resp))%Q
  /\ (confidence (prediction_result resp) <= 1)%Q
  /\ map fst (probabilities (prediction_result resp))
     = ["Benign Case"; "Malignant Case"; "Normal Case"]
  /\ forward_passes
       (events (after (process_image cfg image_data fname content_type) w))
     = S (forward_passes (events w))
  /\ ticks (after (process_image cfg image_data fname content_type) w)
     = (3 + ticks w)%nat.
Proof.
  unfold run, after. intros H.
  destruct (validate_image cfg content_type (Z.of_nat (length image_data)))
    eqn:Hv.
  2: { rewrite (process_image_invalid cfg image_data fname content_type w Hv)
         in H. discriminate. }
  destruct (pil_identify image_data) as [im |] eqn:Hd.
  2: { rewrite (process_image_undecodable cfg image_data fname content_type w
                  Hv Hd) in H. discriminate. }
  destruct (pil_load im) as [e |] eqn:Hload.
  { rewrite (process_image_load_raises cfg image_data fname content_type im e
               w Hv Hd Hload) in H. discriminate. }
  destruct (preprocess_image cfg im) as [t | e] eqn:Hp.
  2: { rewrite (process_image_preprocess_raises cfg image_data fname
                  content_type im e w Hv Hd Hload Hp) in H. discriminate. }
  destruct (predict t w) as [[r | e] w1] eqn:Hr.
  2: { rewrite (process_image_predict_raises cfg image_data fname content_type
                  im t w w1 e Hv Hd Hload Hp Hr) in H. discriminate. }
  destruct (predict_ok_inv w w1 t r Hr) as [Hl [Hlab [Hkeys Hw1]]].
  subst w1.
  destruct (Qle_bool 0 (confidence r) && Qle_bool (confidence r) 1) eqn:B.
  2: { exfalso. revert H.
       rewrite (process_image_decoded cfg image_data fname content_type im t w
                  Hv Hd Hload Hp).
       unfold try_except, bind at 1. rewrite Hr.
       unfold bind at 1, lift at 1, PredictionResult_validate. rewrite B.
       simpl. unfold logger_error, emit, bind, raise. simpl. discriminate. }
  assert (E : process_image cfg image_data fname content_type w
              = (Ok (mkPredictionResponse "success" fname
                       (extract_image_info im
                          (Some (Z.of_nat (length image_data))))
                       (calculate_image_stats (np_array im)
                          (Some (Z.of_nat (length image_data))))
                       r "Image processed successfully"
                       (utcnow_isoformat (S (S (ticks w))))),
                 mkWorld (self w) (ModelPredict t :: events w)
                   (S (S (S (ticks w)))))).
  { rewrite (process_image_decoded cfg image_data fname content_type im t w
               Hv Hd Hload Hp).
    unfold try_except, bind at 1. rewrite Hr.
    unfold bind at 1, lift at 1, PredictionResult_validate. rewrite B.
    reflexivity. }
  apply andb_true_iff in B. destruct B as [B0 B1].
  apply Qle_bool_iff in B0, B1.
  rewrite E in H |- *. simpl in H. injection H as <-. simpl.
  repeat split; try assumption; try reflexivity.
  exists im. repeat split; reflexivity.
Qed.

End Success.

Lemma process_image_success_witness :
  validate_image settings (Some "image/png")
    (Z.of_nat (length Mini.gray_upload)) = true.
Proof.
  destruct (run (process_image (L := Mini.libs) settings Mini.gray_upload
                   "scan.png" (Some "image/png")) Mini.loaded)
    as [resp | e] eqn:E.
  - exact (proj1 (process_image_success (L := Mini.libs) settings
                    Mini.gray_upload "scan.png" (Some "image/png")
                    Mini.loaded resp E)).
  - discriminate E.
Defined.

(** ** Construction, health and model information *)

Section Construction.

Context {L : Libs}.

(** The run of [__init__], by the outcome of the model loader. *)
Lemma init_run (cfg : Settings) (w : World) :
  __init__ cfg w
  = match keras_load_model (get_model_path cfg) with
    | Ok m =>
        (Ok tt, mkWorld (mkProcessor (Some m) true) (events w) (ticks w))
    | Raise e =>
        (if isinstance e Exception_ then Ok tt else Raise e,
         mkWorld (mkProcessor None false)
           (logged "Failed to load model: " e (events w)) (ticks w))
    end.
Proof.
  unfold __init__, _load_model, try_except, bind, set_model,
    set_model_loaded, lift, logger_error, emit, logged, raise. simpl.
  destruct (keras_load_model (get_model_path cfg)) as [m | e]; simpl;
    [reflexivity|].
  destruct (isinstance e Exception_); reflexivity.
Qed.

(** X11: constructing the processor never fails on an exception of class
    [Exception] raised by the model loader: the failure is logged once and
    the processor is left without a model and not loaded; on success it holds
    the model and is loaded, with nothing logged. Either way the two
    attributes agree afterwards. *)
Theorem init_outcome (cfg : Settings) (w : World) :
  match keras_load_model (get_model_path cfg) with
  | Ok m =>
      __init__ cfg w
      = (Ok tt, mkWorld (mkProcessor (Some m) true) (events w) (ticks w))
  | Raise e =>
      __init__ cfg w
      = (if isinstance e Exception_ then Ok tt else Raise e,
         mkWorld (mkProcessor None false)
           (logged "Failed to load model: " e (events w)) (ticks w))
  end
  /\ consistent (self (after (__init__ cfg) w)).
Proof.
  unfold after. rewrite (init_run cfg w).
  destruct (keras_load_model (get_model_path cfg)) as [m | e]; simpl.
  - split; [reflexivity|]. split; simpl; intros H; discriminate.
  - split; [reflexivity|]. split; simpl; intros H;
      [discriminate | reflexivity].
Qed.


(** X13: the health route answers "healthy" whether or not the model was
    loaded: after a construction (whose loader raises at most exceptions of
    class [Exception]) it returns a response whose [model_loaded] field is
    true exactly when the loader returned a model, and whose uptime is the
    second clock reading of the call minus the service start time. *)
Theorem health_after_init (cfg : Settings) (app_name app_version : string)
    (service_start_time : Q) (w : World) :
  (forall e, keras_load_model (get_model_path cfg) = Raise e ->
             isinstance e Exception_ = true) ->
  exists resp : HealthResponse,
    run (__init__ cfg ;;
         health_check cfg app_name app_version service_start_time) w = Ok resp
    /\ hr_status resp = "healthy"
    /\ hr_service resp = app_name
    /\ (hr_model_loaded resp = true <->
        exists m, keras_load_model (get_model_path cfg) = Ok m)
    /\ hr_uptime_seconds resp
       = (clock (S (ticks w)) - service_start_time)%Q.
Proof.
  intros Hexc. pose proof (init_run cfg w) as E.
  unfold run, bind.
  destruct (keras_load_model (get_model_path cfg)) as [m | e] eqn:K.
  - rewrite E. eexists. split; [reflexivity|]. simpl.
    repeat split; try reflexivity. intros _. now exists m.
  - rewrite E. rewrite (Hexc e eq_refl). eexists. split; [reflexivity|]. simpl.
    repeat split; try reflexivity.
    + discriminate.
    + intros [m Hm]. discriminate.
Qed.

(** X14: what [/model/info] advertises is what validation enforces: a
    declared content type is accepted at a size of [n] bytes exactly when it
    is a non-empty entry of [supported_formats] and [n] bytes are at most
    [max_file_size_mb] mebibytes. *)
Theorem model_info_matches_validation (cfg : Settings) (w : World) :
  exists info : ModelInfo,
    run (get_model_info cfg) w = Ok info
    /\ mi_model_loaded info = model_loaded (self w)
    /\ forall (c : string) (n : Z),
         validate_image cfg (Some c) n = true <->
         (c <> "" /\ In c (mi_supported_formats info)
          /\ (inject_Z n / inject_Z (1024 * 1024)
              <= mi_max_file_size_mb info)%Q).
Proof.
  eexists. split; [reflexivity|]. simpl. split; [reflexivity|].
  intros c n.
  assert (S : (inject_Z n / inject_Z (1024 * 1024)
               <= inject_Z (MAX_FILE_SIZE cfg) / inject_Z (1024 * 1024))%Q
              <-> n <= MAX_FILE_SIZE cfg).
  { unfold Qdiv. rewrite Qmult_le_r by reflexivity.
    rewrite <- Zle_Qle. reflexivity. }
  rewrite S. split.
  - intros V.
    assert (D : declared_in (Some c) (get_allowed_image_types cfg)).
    { exists c. repeat split.
      - pose proof (validate_true_declared _ _ _ V) as N.
        intros ->. discriminate.
      - exact (validate_true_in _ _ _ V). }
    rewrite (validate_image_size _ _ _ D) in V.
    apply negb_true_iff in V.
    destruct D as [x [Ex [Hne Hin]]]. injection Ex as <-.
    repeat split; try assumption.
    destruct (Z.gtb_spec n (MAX_FILE_SIZE cfg)); [discriminate | lia].
  - intros [Hne [Hin Hle]].
    assert (D : declared_in (Some c) (get_allowed_image_types cfg))
      by (exists c; auto).
    rewrite (validate_image_size _ _ _ D). apply negb_true_iff.
    destruct (Z.gtb_spec n (MAX_FILE_SIZE cfg)); [lia | reflexivity].
Qed.

End Construction.


Lemma health_after_init_witness :
  exists resp : HealthResponse,
    run (__init__ (L := Mini.libs)
           (mkSettings 100 "image/png" "/" "224,224" (1 # 2)%Q) ;;
         health_check (L := Mini.libs)
           (mkSettings 100 "image/png" "/" "224,224" (1 # 2)%Q)
           "Lung Cancer Detection API" "1.0.0" 0%Q) Mini.world0 = Ok resp
    /\ hr_status resp = "healthy"
    /\ hr_model_loaded resp = false.
Proof.
  destruct (health_after_init (L := Mini.libs)
              (mkSettings 100 "image/png" "/" "224,224" (1 # 2)%Q)
              "Lung Cancer Detection API" "1.0.0" 0%Q Mini.world0)
    as [resp [H1 [H2 [_ [H3 _]]]]].
  - intros e H. injection H as <-. reflexivity.
  - exists resp. split; [exact H1|]. split; [exact H2|].
    destruct (hr_model_loaded resp); [|reflexivity].
    destruct (proj1 H3 eq_refl) as [m Hm]. discriminate Hm.
Defined.

(** ** The statuses of the prediction route *)

Section RouteStatus.

Context {L : Libs}.



End RouteStatus.

(** ** The health polling of the deployment script *)

Lemma health_loop_spec (outcome : nat -> probe) (url : string) (timeout : Z)
    (n : nat) :
  forall (i : nat) (trace : list deploy_event),
    Z.of_nat (i + n) = timeout ->
    (count_sleeps trace = i /\ count_gets trace = i) ->
    let r := health_loop outcome url timeout n i trace in
    (fst r = true <->
     exists k, (i <= k < i + n)%nat /\ probe_ok (outcome k) <> None)
    /\ (fst r = true ->
        exists k, (i <= k < i + n)%nat
                  /\ probe_ok (outcome k) <> None
                  /\ (forall j, (i <= j < k)%nat -> probe_ok (outcome j) = None)
                  /\ count_gets (snd r) = S k
                  /\ count_sleeps (snd r) = k)
    /\ (fst r = false ->
        count_gets (snd r) = (i + n)%nat
        /\ count_sleeps (snd r) = Nat.pred (i + n) \/
        (n = 0%nat /\ count_gets (snd r) = i /\ count_sleeps (snd r) = i)).
Proof.
  induction n as [| n IH]; intros i trace Hsum [Hs Hg]; cbv zeta.
  - simpl. split; [|split].
    + split; [discriminate | intros [k [Hk _]]; lia].
    + discriminate.
    + intros _. right. auto.
  - simpl. destruct (probe_ok (outcome i)) as [st |] eqn:P.
    + simpl. split; [|split].
      * split; [|reflexivity]. intros _. exists i. split; [lia|].
        rewrite P. discriminate.
      * intros _. exists i. split; [lia|]. split; [rewrite P; discriminate|].
        split; [intros j Hj; lia|]. rewrite Hg, Hs. auto.
      * discriminate.
    + set (trace2 := if Z.of_nat i <? timeout - 1
                     then Sleep 1 :: Get url :: trace
                     else Get url :: trace).
      assert (G2 : count_gets trace2 = S i).
      { unfold trace2. destruct (Z.of_nat i <? timeout - 1); simpl;
          now rewrite Hg. }
      assert (S2 : count_sleeps trace2
                   = if Z.of_nat i <? timeout - 1 then S i else i).
      { unfold trace2. destruct (Z.of_nat i <? timeout - 1); simpl;
          now rewrite Hs. }
      destruct n as [| n'].
      * simpl. split; [|split].
        -- split; [discriminate|]. intros [k [Hk Hok]].
           assert (k = i) by lia. subst k. congruence.
        -- discriminate.
        -- intros _. left. rewrite G2, S2.
           assert (B : (Z.of_nat i <? timeout - 1) = false)
             by (apply Z.ltb_ge; lia).
           rewrite B. split; [lia|]. simpl. lia.
      * assert (B : (Z.of_nat i <? timeout - 1) = true)
          by (apply Z.ltb_lt; lia).
        rewrite B in S2.
        assert (Hsum' : Z.of_nat (S i + S n') = timeout) by lia.
        specialize (IH (S i) trace2 Hsum' (conj S2 G2)). cbv zeta in IH.
        destruct IH as [IH1 [IH2 IH3]].
        split; [|split].
        -- rewrite IH1. split.
           ++ intros [k [Hk Hok]]. exists k. split; [lia | exact Hok].
           ++ intros [k [Hk Hok]]. exists k. split; [|exact Hok].
              destruct (Nat.eq_dec k i) as [-> | Hne]; [congruence | lia].
        -- intros Ht. destruct (IH2 Ht) as [k [Hk [Hok [Hfirst [Hgk Hsk]]]]].
           exists k. split; [lia|]. split; [exact Hok|].
           split; [|split; assumption].
           intros j Hj. destruct (Nat.eq_dec j i) as [-> | Hne];
             [exact P | apply Hfirst; lia].
        -- intros Hf. destruct (IH3 Hf) as [[Hg' Hs'] | [Hz _]];
             [|discriminate].
           left. split; [rewrite Hg'; lia | rewrite Hs'; simpl; lia].
Qed.

(** X16: [check_api_health] returns [True] exactly when one of the first
    [timeout] requests is answered with status 200 and a readable body; for a
    timeout of zero or less it returns [False] without any request. *)
Theorem check_api_health_result (outcome : nat -> probe) (url : string)
    (timeout : Z) :
  (fst (check_api_health outcome url timeout) = true <->
   exists k : nat, Z.of_nat k < timeout /\ probe_ok (outcome k) <> None)
  /\ (timeout <= 0 ->
      check_api_health outcome url timeout
      = (false, [Print MsgFailed; Print (MsgChecking url)])).
Proof.
  split.
  - destruct (Z.le_gt_cases timeout 0) as [Hle | Hgt].
    + unfold check_api_health.
      assert (Z.to_nat timeout = 0%nat) as -> by lia. simpl.
      split; [discriminate | intros [k [Hk _]]; lia].
    + pose proof (health_loop_spec outcome url timeout (Z.to_nat timeout)
                    0%nat [Print (MsgChecking url)]) as H.
      cbv zeta in H. destruct H as [H _]; [simpl; lia | simpl; auto |].
      unfold check_api_health. rewrite H. split.
      * intros [k [Hk Hok]]. exists k. split; [lia | exact Hok].
      * intros [k [Hk Hok]]. exists k. split; [lia | exact Hok].
  - intros Hle. unfold check_api_health.
    assert (Z.to_nat timeout = 0%nat) as -> by lia. reflexivity.
Qed.

(** X17: [check_api_health] stops at the first successful request and
    sleeps once between two consecutive requests, never after the last one:
    when it returns [True] at request number k (from 0) it has made k + 1
    requests and k sleeps, and when it returns [False] for a positive timeout
    it has made [timeout] requests and [timeout - 1] sleeps. *)
Theorem check_api_health_effort (outcome : nat -> probe) (url : string)
    (timeout : Z) :
  0 < timeout ->
  let r := check_api_health outcome url timeout in
  (fst r = true ->
   exists k : nat,
     Z.of_nat k < timeout
     /\ probe_ok (outcome k) <> None
     /\ (forall j, (j < k)%nat -> probe_ok (outcome j) = None)
     /\ count_gets (snd r) = S k
     /\ count_sleeps (snd r) = k)
  /\ (fst r = false ->
      Z.of_nat (count_gets (snd r)) = timeout
      /\ Z.of_nat (count_sleeps (snd r)) = timeout - 1).
Proof.
  intros Hpos. cbv zeta.
  pose proof (health_loop_spec outcome url timeout (Z.to_nat timeout)
                0%nat [Print (MsgChecking url)]) as H.
  cbv zeta in H. destruct H as [_ [H2 H3]]; [simpl; lia | simpl; auto |].
  unfold check_api_health. split.
  - intros Ht. destruct (H2 Ht) as [k [Hk [Hok [Hfirst [Hg Hs]]]]].
    exists k. split; [lia|]. split; [exact Hok|].
    split; [intros j Hj; apply Hfirst; lia | split; assumption].
  - intros Hf. destruct (H3 Hf) as [[Hg Hs] | [Hz _]]; [|lia].
    simpl in Hg, Hs. rewrite Hg, Hs. lia.
Qed.

Lemma check_api_health_effort_witness :
  count_gets
    (snd (check_api_health
            (fun k => if Nat.eqb k 2 then Answer 200 (Some (Some "healthy"))
                      else Unreachable)
            "http://127.0.0.1:8000/health" 30)) = 3%nat
  /\ count_sleeps
       (snd (check_api_health
               (fun k => if Nat.eqb k 2 then Answer 200 (Some (Some "healthy"))
                         else Unreachable)
               "http://127.0.0.1:8000/health" 30)) = 2%nat.
Proof.
  destruct (check_api_health_effort
              (fun k => if Nat.eqb k 2 then Answer 200 (Some (Some "healthy"))
                        else Unreachable)
              "http://127.0.0.1:8000/health" 30 ltac:(lia)) as [H _].
  destruct (H eq_refl) as [k [_ [Hok [Hfirst [Hg Hs]]]]].
  assert (k = 2%nat).
  { destruct (Nat.lt_trichotomy k 2) as [Hlt | [-> | Hgt]];
      [| reflexivity |].
    - exfalso. apply Hok.
      destruct k as [|[|k]]; [reflexivity | reflexivity | lia].
    - specialize (Hfirst 2%nat Hgt). discriminate Hfirst. }
  subst k. split; assumption.
Defined.
